(** * streamlit-autogen: the tool-mediated query loop of [main.py]

    A shallow embedding of the Python script [src/main.py]: the CSV loader
    with its retry loop, the five data-inspection tools, the termination
    predicate handed to the requester agent, the conversation history kept in
    the Streamlit session state, and the prompt built for every query.

    Python values are embedded as follows.
    - [str] is [string]; the [in] operator on two strings is [str_in].
    - A [dict] with string keys is a [gmap string _].
    - [None] and text are the two shapes a message content takes ([PyVal]).
    - An exception is a value of [PyExn]; code that may raise returns [Res].
    - Module level globals ([df], [st.session_state]) are fields of
      [Session], threaded explicitly through every function that reads or
      writes them. *)

From Stdlib Require Import Ascii ZArith Lia.
From Stdlib Require SpecFloat.
From stdpp Require Import base option list strings pretty gmap.

(* String concatenation unfolds on a constructor, as list concatenation does. *)
#[local] Arguments String.append !_ _ / : simpl nomatch.

(** ** Exceptions and results *)

Inductive PyExn : Type :=
| KeyError (key : string)
| TypeError
| ValueError
| EmptyDataError
| ParserError.

Inductive Res (A : Type) : Type :=
| Ok (a : A)
| Raise (e : PyExn).
Arguments Ok {A} a.
Arguments Raise {A} e.

#[global] Instance res_ret : MRet Res := fun _ a => Ok a.

#[global] Instance res_bind : MBind Res := fun _ _ k r =>
  match r with
  | Ok a => k a
  | Raise e => Raise e
  end.

(** ** Strings *)

Module Str.

(** [starts_with p s]: [s.startswith(p)]. *)
Fixpoint starts_with (p s : string) : bool :=
  match p with
  | EmptyString => true
  | String a p' =>
      match s with
      | EmptyString => false
      | String b s' => if Ascii.eqb a b then starts_with p' s' else false
      end
  end.

(** [str_in needle hay]: the Python expression [needle in hay] on two
    strings, a left-to-right search for [needle] at every offset. *)
Fixpoint str_in (needle hay : string) : bool :=
  if starts_with needle hay then true
  else match hay with
       | EmptyString => false
       | String _ hay' => str_in needle hay'
       end.

(** Number of offsets of [hay] at which [needle] starts (overlapping
    occurrences are all counted). *)
Fixpoint occurrences (needle hay : string) : nat :=
  (if starts_with needle hay then 1 else 0) +
  match hay with
  | EmptyString => 0
  | String _ hay' => occurrences needle hay'
  end.

(** [sep.join(parts)]. *)
Fixpoint join (sep : string) (parts : list string) : string :=
  match parts with
  | [] => ""
  | [x] => x
  | x :: rest => x +:+ sep +:+ join sep rest
  end.

End Str.

(** ** Python values and dictionaries *)

(** The content of a chat message: [None] or text. *)
Inductive PyVal : Type :=
| PyNone
| PyStr (s : string).

(** A chat message is a [dict] from field names to values. *)
Abbreviation Msg := (gmap string PyVal).

Module Py.

(** [d.get(key)]: the value, or [None] when [key] is absent. *)
Definition dict_get (d : Msg) (key : string) : PyVal :=
  default PyNone (d !! key).

(** [d[key]]: raises [KeyError] when [key] is absent. *)
Definition dict_item (d : Msg) (key : string) : Res PyVal :=
  match d !! key with
  | Some v => Ok v
  | None => Raise (KeyError key)
  end.

(** [v is not None]. *)
Definition is_not_none (v : PyVal) : bool :=
  match v with
  | PyNone => false
  | PyStr _ => true
  end.

(** [needle in v] for a string [needle]: substring search when [v] is
    text, [TypeError] when [v] is [None] (not iterable). *)
Definition contains (needle : string) (v : PyVal) : Res bool :=
  match v with
  | PyStr s => Ok (Str.str_in needle s)
  | PyNone => Raise TypeError
  end.

End Py.

(** ** Termination predicate (main.py, line 106)

    [lambda msg: msg.get("content") is not None and "TERMINATE" in msg["content"]]

    [and] evaluates its right operand only when the left one is true. *)
Definition is_termination_msg (msg : Msg) : Res bool :=
  if Py.is_not_none (Py.dict_get msg "content")
  then v ← Py.dict_item msg "content"; Py.contains "TERMINATE" v
  else Ok false.

(** ** The loaded table *)

(** A cell of the dataframe.  [NA] is a missing entry ([NaN], [None],
    [NaT]); a float cell holding a NaN is missing as well. *)
Inductive Cell : Type :=
| NA
| IntCell (n : Z)
| FloatCell (x : SpecFloat.spec_float)
| TextCell (s : string)
| BoolCell (b : bool).

(** A dataframe: its columns in order, each a label and its cells. *)
Abbreviation Series := (list Cell).
Abbreviation Dataset := (list (string * list Cell)).

Module Frame.

(** [df.columns]. *)
Definition columns (df : Dataset) : list string := df.*1.

(** [name in df.columns]. *)
Definition has_column (df : Dataset) (name : string) : bool :=
  bool_decide (name ∈ columns df).

(** [df[name]]: raises [KeyError] when there is no such column. *)
Fixpoint item (df : Dataset) (name : string) : Res Series :=
  match df with
  | [] => Raise (KeyError name)
  | (n, cells) :: rest =>
      if decide (n = name) then Ok cells else item rest name
  end.

(** Element-wise [isnull()]. *)
Definition isnull (c : Cell) : bool :=
  match c with
  | NA => true
  | FloatCell SpecFloat.S754_nan => true
  | _ => false
  end.

(** [Series.sum()] of a boolean series: [True] counts for one. *)
Fixpoint sum_bool (bs : list bool) : nat :=
  match bs with
  | [] => 0
  | b :: rest => (if b then 1 else 0) + sum_bool rest
  end.

(** [Series.to_dict()] on a series indexed by labels: the entries are
    written into a fresh dict in order, a later label replacing an equal
    earlier one. *)
Definition to_dict {V} (entries : list (string * V)) : gmap string V :=
  foldl (fun d kv => <[kv.1 := kv.2]> d) ∅ entries.

(** [df.shape[0]]. *)
Definition nrows (df : Dataset) : nat :=
  match df with
  | [] => 0
  | col :: _ => length col.2
  end.

(** What [read_csv] guarantees of its result: labels are pairwise
    distinct and every column has [nrows] cells. *)
Definition well_formed (df : Dataset) : Prop :=
  NoDup (columns df) /\ Forall (fun col => length col.2 = nrows df) df.

(** Number of missing entries of a column. *)
Definition missing_entries (cells : Series) : nat :=
  length (filter (fun c => isnull c = true) cells).

End Frame.

(** ** Program state *)

(** One turn of the conversation: the dict [{"role": r, "content": c}]. *)
Record Turn : Type := mkTurn { role : string; content : string }.

(** The globals of the script: the dataframe [df] and
    [st.session_state.conversation_history]. *)
Record Session : Type := mkSession {
  df : Dataset;
  conversation_history : list Turn
}.

(** [add_to_history(role, content)] (main.py, lines 128-129). *)
Definition add_to_history (r c : string) (s : Session) : Session :=
  {| df := df s;
     conversation_history := conversation_history s ++ [mkTurn r c] |}.

(** The session as the script initialises it (lines 124-125): an empty
    history. *)
Definition new_session (d : Dataset) : Session :=
  {| df := d; conversation_history := [] |}.

(** ** Loading the CSV file (main.py, lines 8-23) *)

Module Loader.

(** What one call of [pd.read_csv] does: it returns a dataframe, raises
    [pd.errors.EmptyDataError], or raises another parser error. *)
Inductive Outcome : Type :=
| Parsed (d : Dataset)
| Empty
| Malformed.

(** The observable actions of [load_data].  [Sleep n] is
    [time.sleep(0.5 * n)]: [n] backoff units of half a second. *)
Inductive Event : Type :=
| ReadCsv (low_memory : bool)
| Sleep (units : nat).

#[global] Instance event_eq_dec : EqDecision Event.
Proof. solve_decision. Defined.

(** The file system seen from the script: [oracle k] is the outcome of
    the [k]-th call of [read_csv] (counting from 0). *)
Definition Oracle : Type := nat -> Outcome.

(** Number of parse attempts made so far. *)
Fixpoint read_attempts (tr : list Event) : nat :=
  match tr with
  | [] => 0
  | ReadCsv _ :: rest => S (read_attempts rest)
  | Sleep _ :: rest => read_attempts rest
  end.

(** Backoff units slept so far. *)
Fixpoint total_wait (tr : list Event) : nat :=
  match tr with
  | [] => 0
  | Sleep n :: rest => n + total_wait rest
  | ReadCsv _ :: rest => total_wait rest
  end.

Definition result_of (o : Outcome) : Res Dataset :=
  match o with
  | Parsed d => Ok d
  | Empty => Raise EmptyDataError
  | Malformed => Raise ParserError
  end.

(** [pd.read_csv(file, low_memory=...)]. *)
Definition read_csv (oracle : Oracle) (low_memory : bool)
    (tr : list Event) : Res Dataset * list Event :=
  (result_of (oracle (read_attempts tr)), tr ++ [ReadCsv low_memory]).

(** [time.sleep(0.5 * units)]. *)
Definition sleep (units : nat) (tr : list Event) : list Event :=
  tr ++ [Sleep units].

(** The [for attempt in range(3)] loop of the handler (lines 15-23).  A
    loop that runs out without returning lets the function return
    [None]. *)
Fixpoint retry (oracle : Oracle) (attempts : list nat) (tr : list Event)
    : Res (option Dataset) * list Event :=
  match attempts with
  | [] => (Ok None, tr)
  | attempt :: rest =>
      match read_csv oracle true tr with
      | (Ok d, tr1) => (Ok (Some d), tr1)
      | (Raise EmptyDataError, tr1) =>
          if attempt <? 2
          then retry oracle rest (sleep (attempt + 1) tr1)
          else (Raise EmptyDataError, tr1)
      | (Raise e, tr1) => (Raise e, tr1)
      end
  end.

(** [load_data(file)]: the result (a dataframe, [None], or an
    exception) and the actions performed. *)
Definition load_data (oracle : Oracle) : Res (option Dataset) * list Event :=
  match read_csv oracle false [] with
  | (Ok d, tr) => (Ok (Some d), tr)
  | (Raise EmptyDataError, tr) => retry oracle (seq 0 3) tr
  | (Raise e, tr) => (Raise e, tr)
  end.

(** The longest run of actions [load_data] can perform. *)
Definition schedule : list Event :=
  [ReadCsv false; ReadCsv true; Sleep 1; ReadCsv true; Sleep 2; ReadCsv true].

(** A file that reads as empty [k] times and then parses to [d]. *)
Definition empty_then (k : nat) (d : Dataset) : Oracle :=
  fun i => if i <? k then Empty else Parsed d.

Definition always_empty : Oracle := fun _ => Empty.

Definition lift_result (r : Res Dataset) : Res (option Dataset) :=
  d ← r; Ok (Some d).

End Loader.

(** ** The data-analysis tools (main.py, lines 60-85) *)

(** The line feed written [\n] in the Python source. *)
Definition nl : string := String (Ascii.ascii_of_nat 10) "".

(** The pandas computations the tools delegate to.  They are library
    code: each is a function of the data it is applied to. *)
Class Pandas : Type := {
  (** [frame.describe().to_string()] *)
  frame_describe : Dataset -> string;
  (** [str(series.dtype)] *)
  series_dtype : Series -> string;
  (** [series.nunique()] *)
  series_nunique : Series -> nat;
  (** [str(series.value_counts().nlargest(5).to_dict())] *)
  series_top5 : Series -> string;
  (** [series.corr(other)]; it raises (a [ValueError]) on a column whose
      values do not convert to floats *)
  series_corr : Series -> Series -> Res SpecFloat.spec_float;
  (** [series.describe().to_dict()] *)
  series_describe : Series -> gmap string Cell
}.

(** What a tool hands back to the agent framework. *)
Inductive ToolResult : Type :=
| RStr (s : string)
| RFloat (x : SpecFloat.spec_float)
| RCounts (d : gmap string nat)
| RStats (d : gmap string Cell).

(** A tool runs against the globals of the script. *)
Definition Tool : Type := Session -> Res ToolResult * Session.

Section Tools.

Context {pd : Pandas}.


Definition get_column_info (column_name : string) : Tool := fun s =>
  (if Frame.has_column (df s) column_name
   then col ← Frame.item (df s) column_name;
        Ok (RStr ("Column '" +:+ column_name +:+ "':" +:+ nl +:+
                  "Type: " +:+ series_dtype col +:+ nl +:+
                  "Unique values: " +:+ pretty (series_nunique col) +:+ nl +:+
                  "Top 5 values: " +:+ series_top5 col))
   else Ok (RStr ("Column '" +:+ column_name +:+
                  "' not found in the dataframe.")),
   s).

Definition calculate_correlation (column1 column2 : string) : Tool := fun s =>
  (if Frame.has_column (df s) column1 && Frame.has_column (df s) column2
   then c1 ← Frame.item (df s) column1;
        c2 ← Frame.item (df s) column2;
        x ← series_corr c1 c2;
        Ok (RFloat x)
   else Ok (RStr "One or both columns not found in the dataframe."),
   s).

Definition get_missing_values : Tool := fun s =>
  (Ok (RCounts (Frame.to_dict
         (map (fun col => (col.1, Frame.sum_bool (map Frame.isnull col.2)))
              (df s)))),
   s).

Definition generate_summary_stats (column_name : string) : Tool := fun s =>
  (if Frame.has_column (df s) column_name
   then col ← Frame.item (df s) column_name;
        Ok (RStats (series_describe col))
   else Ok (RStr ("Column '" +:+ column_name +:+
                  "' not found in the dataframe.")),
   s).

(** A request for one of the registered tools with its arguments. *)
Inductive ToolCall : Type :=
| DescribeData
| GetColumnInfo (column_name : string)
| CalculateCorrelation (column1 column2 : string)
| GetMissingValues
| GenerateSummaryStats (column_name : string).

(** The name under which a tool is registered (lines 87-100, 110-114). *)
Definition tool_name (c : ToolCall) : string :=
  match c with
  | DescribeData => "describe_data"
  | GetColumnInfo _ => "get_column_info"
  | CalculateCorrelation _ _ => "calculate_correlation"
  | GetMissingValues => "get_missing_values"
  | GenerateSummaryStats _ => "generate_summary_stats"
  end.



End Tools.

(** ** The query handler (main.py, lines 141-164) *)

(** How a call into the agent framework ends: it returns, it raises, or
    it has not returned yet. *)
Inductive Run (A : Type) : Type :=
| Done (a : A)
| Fails (e : PyExn)
| Pending.
Arguments Done {A} a.
Arguments Fails {A} e.
Arguments Pending {A}.

(** The object [initiate_chat] returns. *)
Record ChatResult : Type := mkChatResult {
  chat_history : list Msg;
  summary : string
}.

(** [user_proxy.initiate_chat(assistant, message=...)] as the script
    sees it: a function of the message. *)
Definition Chat : Type := string -> Run ChatResult.

(** [f"{msg['role']}: {msg['content']}"]. *)
Definition format_turn (t : Turn) : string :=
  role t +:+ ": " +:+ content t.

(** The prompt of [analyze_data] (lines 153-154). *)
Definition build_prompt (query : string) (s : Session) : string :=
  let history := Str.join nl (map format_turn (conversation_history s)) in
  "Conversation history:" +:+ nl +:+ history +:+ nl +:+ nl +:+
  "Analyze the following data based on this query: " +:+ query.

(** [analyze_data(query)] (lines 151-156). *)
Definition analyze_data (chat : Chat) (query : string) (s : Session)
    : Run string :=
  match chat (build_prompt query s) with
  | Done result => Done (summary result)
  | Fails e => Fails e
  | Pending => Pending
  end.

(** The body of the script from line 141 on, for the text [user_query]
    typed into the chat input.  [if user_query:] skips the empty text.
    The outcome is paired with the session state the run leaves behind. *)
Definition on_user_query (chat : Chat) (user_query : string) (s : Session)
    : Run unit * Session :=
  if decide (user_query = "") then (Done (), s)
  else
    let s1 := add_to_history "user" user_query s in
    match analyze_data chat user_query s1 with
    | Done result => (Done (), add_to_history "assistant" result s1)
    | Fails e => (Fails e, s1)
    | Pending => (Pending, s1)
    end.

(** The message [analyze_data] passes to the framework when the handler
    runs it for [user_query] from session [s]. *)
Definition instruction_of (user_query : string) (s : Session) : string :=
  build_prompt user_query (add_to_history "user" user_query s).

(** [add_to_history] called once for every (role, content) pair of
    [calls], in order. *)
Definition append_all (calls : list (string * string)) (s : Session) : Session :=
  foldl (fun acc rc => add_to_history rc.1 rc.2 acc) s calls.

(** The turns before the current query, one per line, each ended by a
    line feed. *)
Definition history_lines (turns : list Turn) : string :=
  foldr (fun t acc => format_turn t +:+ nl +:+ acc) "" turns.

(** ** The exchange between the two agents *)

Module Exchange.

(** The two agents of the exchange.  [responder] is the model-backed
    assistant: its next message given the messages so far.
    [requester_reply] is the automatic reply of the user proxy to a message
    that does not end the exchange (the result of a requested tool call
    folded back in).  [summarize] extracts the summary from the last
    message. *)
Record Agents : Type := {
  responder : list Msg -> Msg;
  requester_reply : Msg -> Msg;
  summarize : Msg -> string
}.

Inductive State : Type :=
| Exchanging (transcript : list Msg)
| Terminated (transcript : list Msg) (last : Msg).

(** Modelled from the spec: the loop behind [initiate_chat], which lives
    in the agent framework and not in this repository.  Section 4.4: the
    responder produces a message; the exchange ends when that message
    satisfies the termination predicate the script installed on the user
    proxy, and otherwise the requester replies automatically and the
    exchange goes on.  There is no turn budget. *)
Definition step (ag : Agents) (st : State) : Res State :=
  match st with
  | Exchanging t =>
      let m := responder ag t in
      stop ← is_termination_msg m;
      Ok (if stop : bool then Terminated (t ++ [m]) m
          else Exchanging (t ++ [m; requester_reply ag m]))
  | Terminated t m => Ok (Terminated t m)
  end.

(** [fuel] steps of the exchange. *)
Fixpoint run (ag : Agents) (fuel : nat) (st : State) : Res State :=
  match fuel with
  | 0 => Ok st
  | S fuel' => st' ← step ag st; run ag fuel' st'
  end.

(** Modelled from the spec: [initiate_chat] observed after [fuel] steps.
    The first message of the exchange carries the prompt; the summary is
    extracted from the last produced message. *)
Definition initiate_chat (ag : Agents) (fuel : nat) : Chat := fun message =>
  match run ag fuel (Exchanging [{["content" := PyStr message]}]) with
  | Ok (Terminated t m) => Done (mkChatResult t (summarize ag m))
  | Ok (Exchanging _) => Pending
  | Raise e => Fails e
  end.

(** The transcript at the start of round [k] when no earlier message
    ended the exchange. *)
Fixpoint transcript_at (ag : Agents) (k : nat) (t0 : list Msg) : list Msg :=
  match k with
  | 0 => t0
  | S k' =>
      let t := transcript_at ag k' t0 in
      t ++ [responder ag t; requester_reply ag (responder ag t)]
  end.

(** The [k]-th message the responder produces. *)
Definition produced (ag : Agents) (k : nat) (t0 : list Msg) : Msg :=
  responder ag (transcript_at ag k t0).

End Exchange.

(** ** What the page shows (main.py, lines 131-138 and 147-161) *)

(** The Streamlit elements the modelled parts of the script put on the
    page.  [ChatMessage r ws] is a [with st.chat_message(r):] block and the
    texts written inside it by [st.write]. *)
Inductive Widget : Type :=
| FileUploader (label : string)
| Warning (text : string)
| ChatMessage (role : string) (written : list string).

(** [display_conversation()] (lines 132-135): one block per stored turn. *)
Definition display_conversation (s : Session) : list Widget :=
  map (fun message => ChatMessage (role message) [content message])
      (conversation_history s).

(** The script from line 138 on, with what it renders: the stored
    conversation first, then, for a non-empty [user_query], the block of
    the query and the block of the answer.  The assistant block is opened
    before [analyze_data] runs, so it stays empty when the call does not
    return. *)
Definition render_page (chat : Chat) (user_query : string) (s : Session)
    : Run unit * Session * list Widget :=
  let shown := display_conversation s in
  if decide (user_query = "") then (Done (), s, shown)
  else
    let s1 := add_to_history "user" user_query s in
    let shown1 := shown ++ [ChatMessage "user" [user_query]] in
    match analyze_data chat user_query s1 with
    | Done result =>
        (Done (), add_to_history "assistant" result s1,
         shown1 ++ [ChatMessage "assistant" [result]])
    | Fails e => (Fails e, s1, shown1 ++ [ChatMessage "assistant" []])
    | Pending => (Pending, s1, shown1 ++ [ChatMessage "assistant" []])
    end.

(** Every assistant turn of [h] comes right after a user turn, and there
    is no third role. *)
Definition answers_follow_queries (h : list Turn) : Prop :=
  forall i t, h !! i = Some t ->
    role t = "user" \/
    (role t = "assistant" /\
     exists j u, i = S j /\ h !! j = Some u /\ role u = "user").

(** ** Start of the script (main.py, lines 25-43) *)

Module Startup.

(** The object [st.file_uploader] returns for an uploaded file.
    [decoded] is [getvalue().decode("utf-8")]: [None] when the bytes are
    not UTF-8 and the call raises [UnicodeDecodeError]. *)
Record Upload : Type := { decoded : option string }.

Inductive Exn : Type :=
| UnicodeDecodeError
| LoaderError (e : PyExn).

(** What the script has done so far: the elements rendered, the texts
    written to temporary files, and the actions of [load_data] on the
    temporary file and on the upload object. *)
Record Trace : Type := mkTrace {
  widgets : list Widget;
  temp_files : list string;
  temp_reads : list Loader.Event;
  upload_reads : list Loader.Event
}.

Definition start : Trace := mkTrace [] [] [] [].

(** A statement goes on with a value, stops the script ([st.stop()]), or
    raises. *)
Inductive Step (A : Type) : Type :=
| Next (a : A)
| Stop
| Crash (e : Exn).
Arguments Next {A} a.
Arguments Stop {A}.
Arguments Crash {A} e.

Definition Script (A : Type) : Type := Trace -> Step A * Trace.

#[global] Instance script_ret : MRet Script := fun _ a tr => (Next a, tr).

#[global] Instance script_bind : MBind Script := fun _ _ k m tr =>
  match m tr with
  | (Next a, tr') => k a tr'
  | (Stop, tr') => (Stop, tr')
  | (Crash e, tr') => (Crash e, tr')
  end.

(** [st.file_uploader(label)]. *)
Definition file_uploader (label : string) : Script unit := fun tr =>
  (Next (), mkTrace (widgets tr ++ [FileUploader label]) (temp_files tr)
                    (temp_reads tr) (upload_reads tr)).

(** [st.warning(text)]. *)
Definition warning (text : string) : Script unit := fun tr =>
  (Next (), mkTrace (widgets tr ++ [Warning text]) (temp_files tr)
                    (temp_reads tr) (upload_reads tr)).

(** [st.stop()]. *)
Definition stop {A} : Script A := fun tr => (Stop, tr).

(** [StringIO(uploaded_file.getvalue().decode("utf-8")).read()]. *)
Definition read_text (up : Upload) : Script string := fun tr =>
  match decoded up with
  | Some text => (Next text, tr)
  | None => (Crash UnicodeDecodeError, tr)
  end.

(** Lines 29-31: the text goes into a fresh file under [/tmp]. *)
Definition write_temp (text : string) : Script unit := fun tr =>
  (Next (), mkTrace (widgets tr) (temp_files tr ++ [text])
                    (temp_reads tr) (upload_reads tr)).

Definition step_of (r : Res (option Dataset)) : Step (option Dataset) :=
  match r with
  | Ok d => Next d
  | Raise e => Crash (LoaderError e)
  end.

(** [load_data(temp_filepath)]. *)
Definition load_temp (temp_file : Loader.Oracle) : Script (option Dataset) :=
  fun tr =>
    let '(r, events) := Loader.load_data temp_file in
    (step_of r, mkTrace (widgets tr) (temp_files tr)
                        (temp_reads tr ++ events) (upload_reads tr)).

(** [load_data(uploaded_file)]. *)
Definition load_upload (upload_stream : Loader.Oracle) : Script (option Dataset) :=
  fun tr =>
    let '(r, events) := Loader.load_data upload_stream in
    (step_of r, mkTrace (widgets tr) (temp_files tr)
                        (temp_reads tr) (upload_reads tr ++ events)).

Definition please_upload : string := "Please upload a CSV file to proceed.".

(** Lines 25-43.  [temp_file] and [upload_stream] are what [read_csv]
    meets when it reads the temporary file and the upload object.  The
    dataframe of the first [load_data] is bound to [df] and replaced by the
    one of line 43. *)
Definition startup (uploaded_file : option Upload)
    (temp_file upload_stream : Loader.Oracle) : Script (option Dataset) :=
  _ ← (match uploaded_file with
       | Some up =>
           text ← read_text up;
           _ ← write_temp text;
           _ ← load_temp temp_file;
           mret ()
       | None =>
           _ ← warning please_upload;
           stop
       end : Script unit);
  _ ← (match uploaded_file with
       | None =>
           _ ← warning please_upload;
           stop
       | Some _ => mret ()
       end : Script unit);
  load_upload upload_stream.

(** The whole start: the uploader widget, then lines 26-43. *)
Definition run (uploaded_file : option Upload)
    (temp_file upload_stream : Loader.Oracle) : Step (option Dataset) * Trace :=
  (_ ← file_uploader "Choose a CSV file";
   startup uploaded_file temp_file upload_stream) start.

(** Number of warnings on the page. *)
Fixpoint warnings (ws : list Widget) : nat :=
  match ws with
  | [] => 0
  | Warning _ :: rest => S (warnings rest)
  | _ :: rest => warnings rest
  end.

End Startup.

(** ** Reruns of the script *)

(** Streamlit runs the whole script again for every interaction.  Only
    [st.session_state] (here the conversation history) lives on from one
    run to the next: [df] is bound anew by lines 25-43 and the agents are
    built anew by lines 55-114.  A run is given by what it meets: the
    uploader and the files, whether the agents can be built
    ([config_list_from_json] raises without its configuration), the
    exchange these agents would have, and the text in the chat input. *)
Record Rerun : Type := mkRerun {
  uploaded_file : option Startup.Upload;
  temp_file : Loader.Oracle;
  upload_stream : Loader.Oracle;
  agents_built : bool;
  exchange : Chat;
  typed : string
}.

(** The history one run leaves in the session state.  The handler is
    reached only when the start of the script has bound [df] to a dataframe
    and the agents are built; a run that ends before leaves the history as
    it was. *)
Definition rerun (r : Rerun) (h : list Turn) : list Turn :=
  match (Startup.run (uploaded_file r) (temp_file r) (upload_stream r)).1 with
  | Startup.Next (Some d) =>
      if agents_built r
      then conversation_history
             (on_user_query (exchange r) (typed r) (mkSession d h)).2
      else h
  | _ => h
  end.

(** The history after the runs [rs], one after the other, of a session
    that starts with an empty history (lines 124-125). *)
Definition run_queries (rs : list Rerun) : list Turn :=
  foldl (fun h r => rerun r h) [] rs.

(** ** Sample data used to run the definitions *)

Module Sample.

(** A responder that answers every exchange with the same final text. *)
Definition answer : Msg :=
  {["content" := PyStr "The mean of x is 3. TERMINATE"]}.

Definition one_shot : Exchange.Agents :=
  {| Exchange.responder := fun _ => answer;
     Exchange.requester_reply := fun _ => {["content" := PyStr ""]};
     Exchange.summarize := fun m =>
       match m !! "content" with
       | Some (PyStr c) => c
       | _ => ""
       end |}.

(** A tool-call message: it has a role and no content. *)
Definition tool_request : Msg := {["role" := PyStr "assistant"]}.

(** A message whose content is [None]. *)
Definition null_content : Msg :=
  {["role" := PyStr "assistant"; "content" := PyNone]}.

(** A table of three columns and five rows; [score] has two missing
    entries. *)
Definition table : Dataset :=
  [("id", [IntCell 1; IntCell 2; IntCell 3; IntCell 4; IntCell 5]);
   ("name", [TextCell "a"; TextCell "b"; TextCell "c"; TextCell "d"; TextCell "e"]);
   ("score", [IntCell 7; NA; IntCell 9; FloatCell SpecFloat.S754_nan; IntCell 4])].

(** A column without text cells. *)
Definition numeric (cells : Series) : bool :=
  forallb (fun c => match c with TextCell _ => false | _ => true end) cells.

(** Kernels to run the tools with on sample data.  They stand in for
    pandas and leave the statistics out: no number is computed, and the
    correlation raises on a text column. *)
Definition kernels : Pandas :=
  {| frame_describe := fun _ => "";
     series_dtype := fun _ => "object";
     series_nunique := fun cells => length cells;
     series_top5 := fun _ => "{}";
     series_corr := fun a b =>
       if numeric a && numeric b then Ok SpecFloat.S754_nan
       else Raise ValueError;
     series_describe := fun _ => ∅ |}.

Definition session : Session := new_session table.

End Sample.

(** * Properties *)

(** ** Strings *)

Module StrFacts.
Import Str.

Lemma append_nil_r (s : string) : s +:+ "" = s.
Proof. induction s as [|a s IH]; simpl; [done | by f_equal]. Qed.

Lemma append_assoc (s t u : string) : (s +:+ t) +:+ u = s +:+ t +:+ u.
Proof. induction s as [|a s IH]; simpl; [done | by f_equal]. Qed.

Lemma starts_with_spec (p s : string) :
  starts_with p s = true <-> exists t, s = p +:+ t.
Proof.
  revert s. induction p as [|a p IH]; intros s; simpl.
  - split; [intros _; by exists s | done].
  - destruct s as [|b s].
    + split; [done | intros [t Ht]; discriminate].
    + destruct (Ascii.eqb_spec a b) as [->|Hne].
      * rewrite IH. split; intros [t Ht]; exists t; simpl in *; congruence.
      * split; [done | intros [t Ht]; simpl in Ht; congruence].
Qed.

(** The search succeeds exactly when [hay] splits around a copy of
    [needle]. *)
Lemma str_in_spec (needle hay : string) :
  str_in needle hay = true <->
  exists pre post, hay = pre +:+ needle +:+ post.
Proof.
  induction hay as [|b hay IH]; simpl.
  - destruct (starts_with needle "") eqn:E.
    + apply starts_with_spec in E as [t Ht].
      split; [intros _; by exists "", t | done].
    + split; [done |]. intros (pre & post & H).
      destruct pre; simpl in H.
      * assert (starts_with needle "" = true) as E'
          by (apply starts_with_spec; by exists post).
        congruence.
      * discriminate.
  - destruct (starts_with needle (String b hay)) eqn:E.
    + apply starts_with_spec in E as [t Ht].
      split; [intros _; by exists "", t | done].
    + rewrite IH. split.
      * intros (pre & post & ->). by exists (String b pre), post.
      * intros (pre & post & H). destruct pre as [|c pre]; simpl in H.
        -- assert (starts_with needle (String b hay) = true) as E'
             by (apply starts_with_spec; by exists post).
           congruence.
        -- injection H as _ ->. by exists pre, post.
Qed.

Lemma str_in_occurrences (needle hay : string) :
  str_in needle hay = true <-> 0 < occurrences needle hay.
Proof.
  induction hay as [|b hay IH]; simpl;
    destruct (starts_with needle _); simpl; try rewrite IH; split;
    intros; try done; lia.
Qed.

Lemma join_snoc (sep : string) (parts : list string) (x : string) :
  join sep (parts ++ [x]) =
  match parts with
  | [] => x
  | _ => join sep parts +:+ sep +:+ x
  end.
Proof.
  induction parts as [|y parts IH]; [done |].
  destruct parts as [|z parts]; [done |].
  change (join sep ((y :: z :: parts) ++ [x]))
    with (y +:+ sep +:+ join sep ((z :: parts) ++ [x])).
  rewrite IH.
  change (join sep (y :: z :: parts)) with (y +:+ sep +:+ join sep (z :: parts)).
  by rewrite !append_assoc.
Qed.

End StrFacts.

(** ** The loader *)

Module LoaderFacts.
Import Loader.

(** [load_data] unfolded along the outcomes of the first four reads. *)
Lemma load_data_cases (oracle : Oracle) :
  load_data oracle =
  match oracle 0 with
  | Empty =>
      match oracle 1 with
      | Empty =>
          match oracle 2 with
          | Empty =>
              match oracle 3 with
              | Empty => (Raise EmptyDataError, schedule)
              | o => (lift_result (result_of o), schedule)
              end
          | o => (lift_result (result_of o), take 4 schedule)
          end
      | o => (lift_result (result_of o), take 2 schedule)
      end
  | o => (lift_result (result_of o), take 1 schedule)
  end.
Proof.
  unfold load_data, read_csv. simpl.
  destruct (oracle 0) eqn:E0; simpl; try done.
  unfold read_csv, sleep. simpl.
  destruct (oracle 1) eqn:E1; simpl; try done.
  destruct (oracle 2) eqn:E2; simpl; try done.
  destruct (oracle 3) eqn:E3; simpl; done.
Qed.

End LoaderFacts.

(** ** The termination predicate *)

Module TerminationFacts.

Lemma is_termination_msg_text (msg : Msg) (c : string) :
  msg !! "content" = Some (PyStr c) ->
  is_termination_msg msg = Ok (Str.str_in "TERMINATE" c).
Proof.
  intros H. unfold is_termination_msg, Py.dict_get, Py.dict_item.
  by rewrite H.
Qed.

Lemma is_termination_msg_no_text (msg : Msg) :
  msg !! "content" = None \/ msg !! "content" = Some PyNone ->
  is_termination_msg msg = Ok false.
Proof.
  intros [H|H]; unfold is_termination_msg, Py.dict_get; by rewrite H.
Qed.

(** The predicate never raises: the subscript and the search run only
    behind the [is not None] test. *)
Lemma is_termination_msg_total (msg : Msg) :
  exists b, is_termination_msg msg = Ok b.
Proof.
  destruct (msg !! "content") as [[|c]|] eqn:E.
  - exists false. apply is_termination_msg_no_text. by right.
  - eexists. by apply is_termination_msg_text.
  - exists false. apply is_termination_msg_no_text. by left.
Qed.

Lemma is_termination_msg_true (msg : Msg) :
  is_termination_msg msg = Ok true <->
  exists c, msg !! "content" = Some (PyStr c) /\
            Str.str_in "TERMINATE" c = true.
Proof.
  split.
  - intros H. destruct (msg !! "content") as [[|c]|] eqn:E.
    + rewrite is_termination_msg_no_text in H by (by right). discriminate.
    + rewrite (is_termination_msg_text _ _ E) in H. exists c. split; congruence.
    + rewrite is_termination_msg_no_text in H by (by left). discriminate.
  - intros (c & E & Hc). rewrite (is_termination_msg_text _ _ E). by rewrite Hc.
Qed.

End TerminationFacts.

(** ** The exchange *)

Module ExchangeFacts.
Import Exchange TerminationFacts.

Lemma step_stop (ag : Agents) (t : list Msg) :
  is_termination_msg (responder ag t) = Ok true ->
  step ag (Exchanging t) = Ok (Terminated (t ++ [responder ag t]) (responder ag t)).
Proof. intros H. simpl. by rewrite H. Qed.

Lemma step_go_on (ag : Agents) (t : list Msg) :
  is_termination_msg (responder ag t) = Ok false ->
  step ag (Exchanging t) =
  Ok (Exchanging (t ++ [responder ag t; requester_reply ag (responder ag t)])).
Proof. intros H. simpl. by rewrite H. Qed.

Lemma run_terminated (ag : Agents) (fuel : nat) (t : list Msg) (m : Msg) :
  run ag fuel (Terminated t m) = Ok (Terminated t m).
Proof. induction fuel as [|fuel IH]; [done | exact IH]. Qed.

(** While no produced message satisfies the predicate the exchange goes
    on, round after round. *)
Lemma run_exchanging (ag : Agents) (k : nat) : forall (t0 : list Msg) (fuel : nat),
  (forall j, j < k -> is_termination_msg (produced ag j t0) = Ok false) ->
  run ag (k + fuel) (Exchanging t0) = run ag fuel (Exchanging (transcript_at ag k t0)).
Proof.
  induction k as [|k IH]; intros t0 fuel Hk; [done |].
  replace (S k + fuel) with (k + S fuel) by lia.
  rewrite IH by (intros j Hj; apply Hk; lia).
  change (run ag (S fuel) ?st) with (st' ← step ag st; run ag fuel st').
  rewrite step_go_on; [done |]. apply Hk. lia.
Qed.

(** The exchange ends at the first produced message that satisfies the
    predicate, however much fuel is left. *)
Lemma run_ends (ag : Agents) (k fuel : nat) (t0 : list Msg) :
  k < fuel ->
  (forall j, j < k -> is_termination_msg (produced ag j t0) = Ok false) ->
  is_termination_msg (produced ag k t0) = Ok true ->
  run ag fuel (Exchanging t0) =
  Ok (Terminated (transcript_at ag k t0 ++ [produced ag k t0]) (produced ag k t0)).
Proof.
  intros Hlt Hk Hstop.
  replace fuel with (k + S (fuel - S k)) by lia.
  rewrite run_exchanging by done.
  change (run ag (S ?f) ?st) with (st' ← step ag st; run ag f st').
  rewrite step_stop by done. apply run_terminated.
Qed.

(** An exchange that has ended did so on a message whose text contains
    the token. *)
Lemma run_ended_inv (ag : Agents) (fuel : nat) : forall (t0 t : list Msg) (m : Msg),
  run ag fuel (Exchanging t0) = Ok (Terminated t m) ->
  last t = Some m /\ is_termination_msg m = Ok true.
Proof.
  induction fuel as [|fuel IH]; intros t0 t m H; [discriminate |].
  change (run ag (S fuel) ?st) with (st' ← step ag st; run ag fuel st') in H.
  destruct (is_termination_msg_total (responder ag t0)) as [[|] Hb].
  - rewrite step_stop in H by done.
    change (run ag fuel (Terminated (t0 ++ [responder ag t0]) (responder ag t0))
            = Ok (Terminated t m)) in H.
    rewrite run_terminated in H. injection H as <- <-.
    split; [apply last_snoc | done].
  - rewrite step_go_on in H by done. by apply IH in H.
Qed.

End ExchangeFacts.

(** ** The conversation history and the prompt *)

Module HistoryFacts.
Import Str StrFacts.

Lemma append_all_history (calls : list (string * string)) : forall s : Session,
  conversation_history (append_all calls s) =
  conversation_history s ++ map (fun rc => mkTurn rc.1 rc.2) calls.
Proof.
  induction calls as [|[r c] calls IH]; intros s; simpl.
  - by rewrite (right_id_L [] (++)).
  - unfold append_all in *. simpl. rewrite IH. simpl.
    by rewrite <- (assoc_L (++)).
Qed.

Lemma append_all_df (calls : list (string * string)) : forall s : Session,
  df (append_all calls s) = df s.
Proof.
  induction calls as [|[r c] calls IH]; intros s; [done |].
  unfold append_all in *. simpl. by rewrite IH.
Qed.

Lemma join_map_snoc {A} (f : A -> string) (xs : list A) (x : A) :
  join nl (map f (xs ++ [x])) =
  foldr (fun t acc => f t +:+ nl +:+ acc) "" xs +:+ f x.
Proof.
  induction xs as [|y xs IH]; [done |].
  change (join nl (map f ((y :: xs) ++ [x])))
    with (join nl (f y :: map f (xs ++ [x]))).
  destruct (map f (xs ++ [x])) as [|z zs] eqn:E.
  - destruct xs; discriminate.
  - change (join nl (f y :: z :: zs)) with (f y +:+ nl +:+ join nl (z :: zs)).
    rewrite IH. simpl. by rewrite !append_assoc.
Qed.

Lemma occurrences_app_ge (needle pre s : string) :
  occurrences needle s <= occurrences needle (pre +:+ s).
Proof.
  induction pre as [|a pre IH]; simpl; [done |].
  change (occurrences needle (String a (pre +:+ s)))
    with ((if starts_with needle (String a (pre +:+ s)) then 1 else 0)
          + occurrences needle (pre +:+ s)).
  lia.
Qed.

Lemma starts_with_app (needle post : string) :
  starts_with needle (needle +:+ post) = true.
Proof. apply starts_with_spec. by exists post. Qed.

Lemma occurrences_self_app (needle post : string) :
  needle <> "" ->
  1 + occurrences needle post <= occurrences needle (needle +:+ post).
Proof.
  intros Hne. pose proof (starts_with_app needle post) as Hs.
  destruct needle as [|a n]; [done |].
  change (String a n +:+ post) with (String a (n +:+ post)) in *.
  change (occurrences (String a n) (String a (n +:+ post)))
    with ((if starts_with (String a n) (String a (n +:+ post)) then 1 else 0)
          + occurrences (String a n) (n +:+ post)).
  rewrite Hs. pose proof (occurrences_app_ge (String a n) n post). lia.
Qed.

Lemma occurrences_self (needle : string) : 1 <= occurrences needle needle.
Proof.
  pose proof (starts_with_app needle "") as Hs. rewrite append_nil_r in Hs.
  destruct needle as [|a n]; simpl in *; [done |].
  change (occurrences (String a n) (String a n))
    with ((if starts_with (String a n) (String a n) then 1 else 0)
          + occurrences (String a n) n).
  rewrite Hs. lia.
Qed.

(** A text occurs at least twice in a string that holds two copies. *)
Lemma occurrences_twice (needle a b : string) :
  needle <> "" ->
  2 <= occurrences needle (a +:+ needle +:+ b +:+ needle).
Proof.
  intros Hne.
  pose proof (occurrences_app_ge needle a (needle +:+ b +:+ needle)).
  pose proof (occurrences_self_app needle (b +:+ needle) Hne).
  pose proof (occurrences_app_ge needle b needle).
  pose proof (occurrences_self needle). lia.
Qed.

End HistoryFacts.

(** ** The dataframe and the tools *)

Module FrameFacts.
Import Frame.

Lemma has_column_false (df : Dataset) (name : string) :
  name ∉ columns df -> has_column df name = false.
Proof. intros H. unfold has_column. by apply bool_decide_eq_false. Qed.

Lemma has_column_true (df : Dataset) (name : string) :
  has_column df name = true <-> name ∈ columns df.
Proof. unfold has_column. apply bool_decide_eq_true. Qed.

Lemma not_a_column (df : Dataset) (name : string) :
  has_column df name = false -> name ∉ columns df.
Proof. intros H Hin. apply has_column_true in Hin. congruence. Qed.

(** Behind the membership test the subscript finds its column. *)
Lemma item_has_column (df : Dataset) (name : string) :
  has_column df name = true -> exists cells, item df name = Ok cells.
Proof.
  rewrite has_column_true. unfold columns.
  induction df as [|[n cells] df IH]; simpl.
  - intros H. by apply not_elem_of_nil in H.
  - intros H. destruct (decide (n = name)) as [->|Hne]; [by eexists |].
    apply IH. apply elem_of_cons in H as [H|H]; [congruence | done].
Qed.


Lemma sum_bool_isnull (cells : Series) :
  sum_bool (map isnull cells) = missing_entries cells.
Proof.
  unfold missing_entries. induction cells as [|c cells IH]; [done |].
  simpl. rewrite filter_cons. destruct (isnull c) eqn:E.
  - rewrite decide_True by done. simpl. by rewrite IH.
  - rewrite decide_False by done. simpl. by rewrite IH.
Qed.

Section to_dict.
Context {V : Type}.
Implicit Types (entries : list (string * V)) (acc : gmap string V).

(** Writing one entry into the dict under construction. *)
Local Abbreviation write := (fun acc (kv : string * V) => <[kv.1 := kv.2]> acc).

Lemma foldl_write_dom entries : forall acc,
  dom (foldl write acc entries) = dom acc ∪ list_to_set entries.*1.
Proof.
  induction entries as [|[k v] entries IH]; intros acc; simpl.
  - by rewrite (right_id_L ∅ (∪)).
  - rewrite IH, dom_insert_L.
    by rewrite (comm_L (∪) {[k]} (dom acc)), <- (assoc_L (∪)).
Qed.

Lemma foldl_write_other entries (k : string) : forall acc,
  k ∉ entries.*1 -> foldl write acc entries !! k = acc !! k.
Proof.
  induction entries as [|[k' v] entries IH]; intros acc Hk; simpl; [done |].
  simpl in Hk. apply not_elem_of_cons in Hk as [Hne Hk].
  rewrite IH by done. by rewrite lookup_insert_ne.
Qed.

Lemma foldl_write_lookup entries (k : string) (v : V) : forall acc,
  NoDup entries.*1 -> (k, v) ∈ entries ->
  foldl write acc entries !! k = Some v.
Proof.
  induction entries as [|[k' v'] entries IH]; intros acc Hnd Hin; simpl.
  - by apply not_elem_of_nil in Hin.
  - simpl in Hnd. apply NoDup_cons in Hnd as [Hfresh Hnd].
    apply elem_of_cons in Hin as [Heq|Hin].
    + injection Heq as <- <-. rewrite foldl_write_other by done.
      by rewrite lookup_insert_eq.
    + by apply IH.
Qed.

Lemma to_dict_dom entries :
  dom (to_dict entries) = list_to_set entries.*1.
Proof.
  unfold to_dict. rewrite (foldl_write_dom entries ∅), dom_empty_L.
  by rewrite (left_id_L ∅ (∪)).
Qed.

Lemma to_dict_lookup entries (k : string) (v : V) :
  NoDup entries.*1 -> (k, v) ∈ entries -> to_dict entries !! k = Some v.
Proof. apply (foldl_write_lookup entries k v ∅). Qed.

End to_dict.

End FrameFacts.

Module ContractFacts.


End ContractFacts.

(** * The claims *)

(** C10: a message whose [content] field is absent or [None] makes the
    termination predicate return [False]; nothing is raised, so such a
    message neither ends the exchange nor breaks the detection. *)
Theorem is_termination_msg_without_content (msg : Msg) :
  msg !! "content" = None \/ msg !! "content" = Some PyNone ->
  is_termination_msg msg = Ok false.
Proof. apply TerminationFacts.is_termination_msg_no_text. Qed.

Lemma is_termination_msg_without_content_witness :
  (Sample.tool_request !! "content" = None /\
   is_termination_msg Sample.tool_request = Ok false) /\
  (Sample.null_content !! "content" = Some PyNone /\
   is_termination_msg Sample.null_content = Ok false).
Proof.
  split; (split; [reflexivity |]).
  - apply (is_termination_msg_without_content Sample.tool_request).
    left. reflexivity.
  - apply (is_termination_msg_without_content Sample.null_content).
    right. reflexivity.
Defined.

(** C1: for a message with text content the termination predicate is true
    exactly when the text contains ["TERMINATE"] (same case) at some
    position.  When the first such message is the [k]-th one the responder
    produces, the exchange ends on it, and the handler leaves the history
    extended by the user turn and exactly one assistant turn holding the
    returned summary.  An exchange that has ended did so on a message
    whose text contains the token. *)
Theorem terminate_token_ends_exchange
    (msg : Msg) (c : string) (ag : Exchange.Agents) (fuel k : nat)
    (q : string) (s : Session) :
  msg !! "content" = Some (PyStr c) ->
  let t0 := [{["content" := PyStr (instruction_of q s)]} : Msg] in
  let has_token (x : string) :=
    exists pre post, x = pre +:+ "TERMINATE" +:+ post in
  (is_termination_msg msg = Ok true <-> has_token c) /\
  (is_termination_msg msg = Ok false <-> ~ has_token c) /\
  (q <> "" -> k < fuel ->
   (forall j, j < k ->
      is_termination_msg (Exchange.produced ag j t0) = Ok false) ->
   Exchange.produced ag k t0 = msg ->
   has_token c ->
   Exchange.run ag fuel (Exchange.Exchanging t0) =
     Ok (Exchange.Terminated (Exchange.transcript_at ag k t0 ++ [msg]) msg) /\
   on_user_query (Exchange.initiate_chat ag fuel) q s =
     (Done (),
      {| df := df s;
         conversation_history :=
           conversation_history s ++
           [mkTurn "user" q;
            mkTurn "assistant" (Exchange.summarize ag msg)] |})) /\
  (forall r, Exchange.initiate_chat ag fuel (instruction_of q s) = Done r ->
     exists m c', last (chat_history r) = Some m /\
                  m !! "content" = Some (PyStr c') /\ has_token c').
Proof.
  intros Hc t0 has_token.
  pose proof (TerminationFacts.is_termination_msg_text msg c Hc) as Hm.
  assert (Str.str_in "TERMINATE" c = true <-> has_token c) as Hspec
    by apply StrFacts.str_in_spec.
  split; [| split; [| split]].
  - rewrite Hm, <- Hspec. split; [by intros [= ->] | by intros ->].
  - rewrite Hm, <- Hspec. destruct (Str.str_in "TERMINATE" c); split; congruence.
  - intros Hq Hlt Hbefore Hk Htok.
    assert (is_termination_msg (Exchange.produced ag k t0) = Ok true) as Hstop.
    { rewrite Hk, Hm. f_equal. by apply Hspec. }
    pose proof (ExchangeFacts.run_ends ag k fuel t0 Hlt Hbefore Hstop) as Hrun.
    rewrite Hk in Hrun. split; [exact Hrun |].
    unfold on_user_query, analyze_data, Exchange.initiate_chat.
    destruct (decide (q = "")) as [|_]; [done |].
    fold (instruction_of q s). fold t0. rewrite Hrun. simpl.
    unfold add_to_history. simpl. by rewrite <- (assoc_L (++)).
  - intros r Hr. unfold Exchange.initiate_chat in Hr. fold t0 in Hr.
    destruct (Exchange.run ag fuel (Exchange.Exchanging t0)) as [[t|t m]|e] eqn:E;
      try discriminate.
    injection Hr as <-. simpl.
    apply ExchangeFacts.run_ended_inv in E as [Hlast Htrue].
    apply TerminationFacts.is_termination_msg_true in Htrue as (c' & Hc' & Hin).
    exists m, c'. repeat split; try done. by apply StrFacts.str_in_spec.
Qed.

Lemma terminate_token_ends_exchange_witness :
  Sample.answer !! "content" = Some (PyStr "The mean of x is 3. TERMINATE") /\
  is_termination_msg Sample.answer = Ok true /\
  on_user_query (Exchange.initiate_chat Sample.one_shot 1) "mean of x?"
    (new_session []) =
  (Done (),
   {| df := [];
      conversation_history :=
        [mkTurn "user" "mean of x?";
         mkTurn "assistant" "The mean of x is 3. TERMINATE"] |}).
Proof.
  assert (Sample.answer !! "content" =
          Some (PyStr "The mean of x is 3. TERMINATE")) as Hc by reflexivity.
  assert (exists pre post,
            "The mean of x is 3. TERMINATE" = pre +:+ "TERMINATE" +:+ post) as Htok
    by (exists "The mean of x is 3. ", ""; reflexivity).
  destruct (terminate_token_ends_exchange Sample.answer _ Sample.one_shot 1 0
              "mean of x?" (new_session []) Hc) as (Hiff & _ & Hend & _).
  split; [exact Hc |]. split; [by apply Hiff |].
  assert (0 < 1) as Hfuel by lia.
  assert (forall j, j < 0 -> is_termination_msg
            (Exchange.produced Sample.one_shot j
               [{["content" := PyStr (instruction_of "mean of x?" (new_session []))]}])
            = Ok false) as Hbefore by (intros j Hj; lia).
  exact (proj2 (Hend ltac:(discriminate) Hfuel Hbefore eq_refl Htok)).
Defined.

(** C8: [add_to_history] called [N] times on a fresh session leaves a
    history of exactly [N] turns, the [i]-th turn being the one of the
    [i]-th call; a call never removes or changes a turn already there (it
    adds one turn at the end and leaves the dataframe alone). *)
Theorem add_to_history_append_only
    (d : Dataset) (calls : list (string * string)) :
  let snapshot := conversation_history (append_all calls (new_session d)) in
  length snapshot = length calls /\
  snapshot = map (fun rc => mkTurn rc.1 rc.2) calls /\
  (forall i r c, calls !! i = Some (r, c) -> snapshot !! i = Some (mkTurn r c)) /\
  (forall (s : Session) r c,
     length (conversation_history (add_to_history r c s)) =
       S (length (conversation_history s)) /\
     conversation_history (add_to_history r c s) !! length (conversation_history s) =
       Some (mkTurn r c) /\
     df (add_to_history r c s) = df s /\
     forall i t, conversation_history s !! i = Some t ->
                 conversation_history (add_to_history r c s) !! i = Some t).
Proof.
  intros snapshot.
  assert (snapshot = map (fun rc => mkTurn rc.1 rc.2) calls) as Hsnap
    by (unfold snapshot; by rewrite HistoryFacts.append_all_history).
  split; [by rewrite Hsnap, length_map |]. split; [done |]. split.
  - intros i r c Hi. rewrite Hsnap, list_lookup_fmap, Hi. done.
  - intros s r c. simpl. repeat split.
    + rewrite length_app. simpl. lia.
    + rewrite lookup_app_r by lia. by rewrite Nat.sub_diag.
    + intros i t Hi. by apply lookup_app_l_Some.
Qed.

Lemma add_to_history_append_only_witness :
  [("user", "mean of x?"); ("assistant", "3")] !! 1 = Some ("assistant", "3") /\
  conversation_history
    (append_all [("user", "mean of x?"); ("assistant", "3")] (new_session []))
    !! 1 = Some (mkTurn "assistant" "3").
Proof.
  split; [reflexivity |].
  destruct (add_to_history_append_only []
              [("user", "mean of x?"); ("assistant", "3")]) as (_ & _ & H & _).
  apply H. reflexivity.
Defined.

(** C3, as the code has it: the handler calls the framework on one
    message only, [instruction_of].  That message is the fixed header,
    then every turn of the history in order, one per line and prefixed with
    its role, the last of them being the user turn the handler has just
    added for the new query, then an empty line and the fixed directive
    followed by the query.  The text of the query is therefore in the
    instruction at least twice. *)
Theorem instruction_includes_query_turn
    (chat : Chat) (q : string) (s : Session) :
  q <> "" ->
  on_user_query chat q s =
    (let s1 := add_to_history "user" q s in
     match chat (instruction_of q s) with
     | Done r => (Done (), add_to_history "assistant" (summary r) s1)
     | Fails e => (Fails e, s1)
     | Pending => (Pending, s1)
     end) /\
  instruction_of q s =
    "Conversation history:" +:+ nl +:+
    Str.join nl (map format_turn (conversation_history s ++ [mkTurn "user" q]))
    +:+ nl +:+ nl +:+
    "Analyze the following data based on this query: " +:+ q /\
  instruction_of q s =
    ("Conversation history:" +:+ nl +:+
     history_lines (conversation_history s) +:+ "user: ") +:+ q +:+
    (nl +:+ nl +:+ "Analyze the following data based on this query: ") +:+ q /\
  2 <= Str.occurrences q (instruction_of q s).
Proof.
  intros Hq.
  assert (instruction_of q s =
    ("Conversation history:" +:+ nl +:+
     history_lines (conversation_history s) +:+ "user: ") +:+ q +:+
    (nl +:+ nl +:+ "Analyze the following data based on this query: ") +:+ q)
    as Hshape.
  { unfold instruction_of, build_prompt. simpl conversation_history.
    rewrite HistoryFacts.join_map_snoc. fold (history_lines (conversation_history s)).
    unfold format_turn. simpl role. simpl content.
    rewrite !StrFacts.append_assoc. reflexivity. }
  split; [| split; [done | split; [done |]]].
  - unfold on_user_query, analyze_data. destruct (decide (q = "")); [done |].
    fold (instruction_of q s). by destruct (chat (instruction_of q s)).
  - rewrite Hshape. by apply HistoryFacts.occurrences_twice.
Qed.

Lemma instruction_includes_query_turn_witness :
  "mean of x?" <> "" /\
  2 <= Str.occurrences "mean of x?"
         (instruction_of "mean of x?" (new_session [])).
Proof.
  split; [discriminate |].
  apply (instruction_includes_query_turn (fun _ => Pending) "mean of x?"
           (new_session [])).
  discriminate.
Defined.

(** C3, as the claim words it, fails: on a fresh session no turn precedes
    the query, yet the instruction carries a ["user: "] line for it, and
    the text of the query is in the instruction twice, not once. *)
Lemma instruction_repeats_query :
  instruction_of "mean of x?" (new_session []) =
    "Conversation history:" +:+ nl +:+ "user: mean of x?" +:+ nl +:+ nl +:+
    "Analyze the following data based on this query: mean of x?" /\
  Str.occurrences "mean of x?" (instruction_of "mean of x?" (new_session [])) = 2 /\
  Str.occurrences "mean of x?" (instruction_of "mean of x?" (new_session [])) <> 1.
Proof. split; [reflexivity | split; [reflexivity | discriminate]]. Qed.

(** C2, as the code has it: [load_data] reads the file once and, when
    that read fails with [EmptyDataError], up to three more times, four
    parse attempts at most.  The second attempt follows the first at once;
    one backoff unit (half a second) is slept before the third attempt and
    two before the fourth.  The first attempt that does not fail with
    [EmptyDataError] decides the result, and [EmptyDataError] reaches the
    caller only after all four attempts failed with it.  With two empty
    reads and then a good one, the third attempt succeeds after one unit of
    waiting; with three empty reads and then a good one, the fourth
    succeeds after 1 + 2 units. *)
Theorem load_data_retry_policy (oracle : Loader.Oracle) :
  let r := (Loader.load_data oracle).1 in
  let tr := (Loader.load_data oracle).2 in
  tr `prefix_of` Loader.schedule /\
  Loader.read_attempts tr <= 4 /\
  r <> Ok None /\
  (forall k, k < 4 ->
     (forall j, j < k -> oracle j = Loader.Empty) ->
     oracle k <> Loader.Empty ->
     r = Loader.lift_result (Loader.result_of (oracle k)) /\
     Loader.read_attempts tr = S k) /\
  ((forall j, j < 4 -> oracle j = Loader.Empty) ->
     r = Raise EmptyDataError /\ tr = Loader.schedule /\
     Loader.read_attempts tr = 4) /\
  (r = Raise EmptyDataError -> forall j, j < 4 -> oracle j = Loader.Empty) /\
  (forall d,
     oracle 0 = Loader.Empty -> oracle 1 = Loader.Empty ->
     oracle 2 = Loader.Parsed d ->
     r = Ok (Some d) /\
     tr = [Loader.ReadCsv false; Loader.ReadCsv true; Loader.Sleep 1;
           Loader.ReadCsv true] /\
     Loader.total_wait tr = 1) /\
  (forall d,
     oracle 0 = Loader.Empty -> oracle 1 = Loader.Empty ->
     oracle 2 = Loader.Empty -> oracle 3 = Loader.Parsed d ->
     r = Ok (Some d) /\ tr = Loader.schedule /\ Loader.total_wait tr = 1 + 2).
Proof.
  intros r tr. subst r tr. rewrite LoaderFacts.load_data_cases.
  assert (forall P : nat -> Prop, (forall j, j < 4 -> P j) -> P 0 /\ P 1 /\ P 2 /\ P 3)
    as Hall by (intros P HP; repeat split; apply HP; lia).
  destruct (oracle 0) eqn:E0; [| destruct (oracle 1) eqn:E1;
    [| destruct (oracle 2) eqn:E2; [| destruct (oracle 3) eqn:E3 |] |] |];
  simpl;
  (split; [by eexists |]); (split; [lia |]); (split; [done |]);
  (split; [intros k Hk Hbefore Hnot;
           destruct k as [|[|[|[|k]]]]; try lia;
           try (rewrite ?E0, ?E1, ?E2, ?E3 in Hnot; done);
           try (pose proof (Hbefore 0 ltac:(lia)); congruence);
           try (pose proof (Hbefore 1 ltac:(lia)); congruence);
           try (pose proof (Hbefore 2 ltac:(lia)); congruence);
           rewrite ?E0, ?E1, ?E2, ?E3; done |]);
  (split; [intros H; apply Hall in H as (H0 & H1 & H2 & H3);
           try congruence; done |]);
  (split; [intros H; try discriminate;
           intros j Hj; destruct j as [|[|[|[|j]]]]; try lia; done |]);
  split; intros ?; intros; simplify_eq; done.
Qed.

Lemma load_data_retry_policy_witness :
  (Loader.empty_then 2 Sample.table 0 = Loader.Empty /\
   Loader.empty_then 2 Sample.table 1 = Loader.Empty /\
   Loader.empty_then 2 Sample.table 2 = Loader.Parsed Sample.table) /\
  (Loader.load_data (Loader.empty_then 2 Sample.table)).1 = Ok (Some Sample.table) /\
  Loader.total_wait (Loader.load_data (Loader.empty_then 2 Sample.table)).2 = 1.
Proof.
  split; [repeat split |].
  destruct (load_data_retry_policy (Loader.empty_then 2 Sample.table))
    as (_ & _ & _ & _ & _ & _ & H & _).
  destruct (H Sample.table) as (Hr & _ & Hw); [reflexivity .. |].
  split; [exact Hr | exact Hw].
Defined.

(** C2, as the claim words it, fails: a file that keeps reading as empty
    is parsed four times, not three; and when two empty reads are followed
    by a good one, the third attempt succeeds after one backoff unit of
    waiting, not 1 + 2. *)
Lemma load_data_fourth_attempt :
  Loader.load_data Loader.always_empty =
    (Raise EmptyDataError, Loader.schedule) /\
  Loader.read_attempts (Loader.load_data Loader.always_empty).2 = 4 /\
  ~ (Loader.read_attempts (Loader.load_data Loader.always_empty).2 <= 3) /\
  Loader.load_data (Loader.empty_then 2 Sample.table) =
    (Ok (Some Sample.table),
     [Loader.ReadCsv false; Loader.ReadCsv true; Loader.Sleep 1;
      Loader.ReadCsv true]) /\
  ~ (1 + 2 <=
     Loader.total_wait (Loader.load_data (Loader.empty_then 2 Sample.table)).2).
Proof.
  split; [reflexivity |]. split; [reflexivity |]. split; [simpl; lia |].
  split; [reflexivity |]. simpl. lia.
Qed.

(** C4: for a name that is not a column of the dataframe,
    [get_column_info] and [generate_summary_stats] raise nothing and leave
    the state alone; both return the text
    [Column '<name>' not found in the dataframe.], which contains the name
    itself and the marker [not found]. *)
Theorem missing_column_is_reported
    {pd : Pandas} (column_name : string) (s : Session) :
  column_name ∉ Frame.columns (df s) ->
  let msg := "Column '" +:+ column_name +:+ "' not found in the dataframe." in
  get_column_info column_name s = (Ok (RStr msg), s) /\
  generate_summary_stats column_name s = (Ok (RStr msg), s) /\
  Str.str_in column_name msg = true /\
  Str.str_in "not found" msg = true.
Proof.
  intros Hmiss msg. apply FrameFacts.has_column_false in Hmiss.
  unfold get_column_info, generate_summary_stats. rewrite Hmiss.
  repeat split.
  - apply StrFacts.str_in_spec.
    by exists "Column '", "' not found in the dataframe.".
  - apply StrFacts.str_in_spec.
    exists ("Column '" +:+ column_name +:+ "' "), " in the dataframe.".
    unfold msg. by rewrite !StrFacts.append_assoc.
Qed.

Lemma missing_column_is_reported_witness :
  ("missing_col" ∉ Frame.columns (df Sample.session)) /\
  get_column_info (pd := Sample.kernels) "missing_col" Sample.session =
    (Ok (RStr "Column 'missing_col' not found in the dataframe."),
     Sample.session) /\
  generate_summary_stats (pd := Sample.kernels) "missing_col" Sample.session =
    (Ok (RStr "Column 'missing_col' not found in the dataframe."),
     Sample.session).
Proof.
  assert ("missing_col" ∉ Frame.columns (df Sample.session)) as Hmiss
    by (apply FrameFacts.not_a_column; reflexivity).
  split; [exact Hmiss |].
  destruct (missing_column_is_reported (pd := Sample.kernels)
              "missing_col" Sample.session Hmiss) as (H1 & H2 & _).
  split; [exact H1 | exact H2].
Defined.

(** C5: when either argument of [calculate_correlation] is not a column
    of the dataframe, the tool raises nothing, leaves the state alone and
    returns the text [One or both columns not found in the dataframe.]. *)
Theorem correlation_of_missing_column
    {pd : Pandas} (column1 column2 : string) (s : Session) :
  column1 ∉ Frame.columns (df s) \/ column2 ∉ Frame.columns (df s) ->
  calculate_correlation column1 column2 s =
    (Ok (RStr "One or both columns not found in the dataframe."), s) /\
  Str.str_in "not found"
    "One or both columns not found in the dataframe." = true.
Proof.
  intros Hmiss. split; [| reflexivity].
  unfold calculate_correlation.
  destruct Hmiss as [H|H]; apply FrameFacts.has_column_false in H; rewrite H.
  - done.
  - by rewrite andb_false_r.
Qed.

Lemma correlation_of_missing_column_witness :
  ("id" ∉ Frame.columns (df Sample.session) \/
   "missing_col" ∉ Frame.columns (df Sample.session)) /\
  calculate_correlation (pd := Sample.kernels) "id" "missing_col" Sample.session =
    (Ok (RStr "One or both columns not found in the dataframe."),
     Sample.session).
Proof.
  assert ("id" ∉ Frame.columns (df Sample.session) \/
          "missing_col" ∉ Frame.columns (df Sample.session)) as Hmiss
    by (right; apply FrameFacts.not_a_column; reflexivity).
  split; [exact Hmiss |].
  exact (proj1 (correlation_of_missing_column (pd := Sample.kernels)
                  "id" "missing_col" Sample.session Hmiss)).
Defined.

(** C7: [get_missing_values] returns a dict whose keys are exactly the
    column labels of the dataframe; in a loaded dataframe (labels pairwise
    distinct) every column is mapped to the number of its missing
    entries.  Nothing is raised and the state is left alone. *)
Theorem get_missing_values_counts (s : Session) :
  exists counts : gmap string nat,
    get_missing_values s = (Ok (RCounts counts), s) /\
    dom counts = list_to_set (Frame.columns (df s)) /\
    (Frame.well_formed (df s) ->
     forall name cells, (name, cells) ∈ df s ->
       counts !! name = Some (Frame.missing_entries cells)).
Proof.
  eexists. split; [reflexivity |]. split.
  - rewrite FrameFacts.to_dict_dom. unfold Frame.columns.
    by rewrite <- list_fmap_compose.
  - intros [Hnd _] name cells Hin.
    apply FrameFacts.to_dict_lookup.
    + by rewrite <- list_fmap_compose.
    + rewrite <- FrameFacts.sum_bool_isnull.
      by apply (list_elem_of_fmap_2
                  (fun col : string * Series =>
                     (col.1, Frame.sum_bool (map Frame.isnull col.2)))
                  (df s) (name, cells)).
Qed.

Lemma get_missing_values_counts_witness :
  Frame.well_formed (df Sample.session) /\
  exists counts : gmap string nat,
    get_missing_values Sample.session = (Ok (RCounts counts), Sample.session) /\
    counts !! "id" = Some 0 /\ counts !! "name" = Some 0 /\
    counts !! "score" = Some 2.
Proof.
  assert (Frame.well_formed (df Sample.session)) as Hwf.
  { split; apply (bool_decide_unpack _); vm_compute; exact I. }
  split; [exact Hwf |].
  destruct (get_missing_values_counts Sample.session) as (counts & Hrun & _ & Hget).
  exists counts. split; [exact Hrun |].
  pose proof (Hget Hwf) as Hcol. repeat split.
  - etrans; [apply Hcol; apply list_elem_of_In; left; reflexivity |].
    reflexivity.
  - etrans; [apply Hcol; apply list_elem_of_In; right; left; reflexivity |].
    reflexivity.
  - etrans; [apply Hcol; apply list_elem_of_In; right; right; left; reflexivity |].
    reflexivity.
Defined.



(** ** Checks on sample inputs *)

(** The search is case-sensitive: a lower-case token does not end the
    exchange. *)
Example lower_case_token_is_ignored :
  is_termination_msg {["content" := PyStr "please terminate now"]} = Ok false.
Proof. reflexivity. Qed.

(** The token counts wherever it stands, also inside echoed user text. *)
Example echoed_token_ends_exchange :
  is_termination_msg {["content" := PyStr "You wrote: TERMINATED early"]} = Ok true.
Proof. reflexivity. Qed.

(** Three columns, five rows, two missing entries in [score]. *)
Example missing_values_of_table :
  get_missing_values Sample.session =
  (Ok (RCounts (Frame.to_dict [("id", 0); ("name", 0); ("score", 2)])),
   Sample.session).
Proof. reflexivity. Qed.

(** Three empty reads and a good one: four attempts, 1 + 2 units slept. *)
Example load_after_three_empty_reads :
  Loader.load_data (Loader.empty_then 3 Sample.table) =
  (Ok (Some Sample.table), Loader.schedule).
Proof. reflexivity. Qed.

(** A parser error on the first read is not retried. *)
Example malformed_file_is_not_retried :
  Loader.load_data (fun _ => Loader.Malformed) =
  (Raise ParserError, [Loader.ReadCsv false]).
Proof. reflexivity. Qed.

(** * Further properties of the script *)

(** ** Helper facts *)

Module MoreFacts.
Import Str StrFacts.

Lemma str_in_app (needle x a b : string) :
  str_in needle x = true -> str_in needle (a +:+ x +:+ b) = true.
Proof.
  rewrite !str_in_spec. intros (pre & post & ->).
  exists (a +:+ pre), (post +:+ b). by rewrite !append_assoc.
Qed.

Lemma join_cons (sep x : string) (rest : list string) :
  rest <> [] -> join sep (x :: rest) = x +:+ sep +:+ join sep rest.
Proof. by destruct rest. Qed.

(** A joined text holds each of its parts. *)
Lemma join_holds_part (sep x : string) (parts : list string) :
  x ∈ parts -> exists a b, join sep parts = a +:+ x +:+ b.
Proof.
  induction parts as [|y parts IH]; intros Hin.
  - by apply not_elem_of_nil in Hin.
  - destruct parts as [|z parts].
    + apply list_elem_of_singleton in Hin as ->. exists "", "". simpl.
      by rewrite append_nil_r.
    + rewrite join_cons by done. apply elem_of_cons in Hin as [->|Hin].
      * by exists "", (sep +:+ join sep (z :: parts)).
      * destruct (IH Hin) as (a & b & ->).
        exists (y +:+ sep +:+ a), b. by rewrite !append_assoc.
Qed.

Lemma history_lines_snoc (h : list Turn) (t : Turn) :
  history_lines (h ++ [t]) = history_lines h +:+ format_turn t +:+ nl.
Proof.
  induction h as [|u h IH].
  - reflexivity.
  - change (history_lines ((u :: h) ++ [t]))
      with (format_turn u +:+ nl +:+ history_lines (h ++ [t])).
    change (history_lines (u :: h))
      with (format_turn u +:+ nl +:+ history_lines h).
    rewrite IH. by rewrite !append_assoc.
Qed.

(** The prompt in terms of the lines of the history, for a history that
    ends with the turn [t]. *)
Lemma build_prompt_snoc (q : string) (d : Dataset) (h : list Turn) (t : Turn) :
  build_prompt q (mkSession d (h ++ [t])) =
  "Conversation history:" +:+ nl +:+ history_lines h +:+ format_turn t +:+
  nl +:+ nl +:+ "Analyze the following data based on this query: " +:+ q.
Proof.
  unfold build_prompt. simpl conversation_history.
  rewrite HistoryFacts.join_map_snoc. fold (history_lines h).
  by rewrite !append_assoc.
Qed.

Lemma instruction_of_shape (q : string) (s : Session) :
  instruction_of q s =
  "Conversation history:" +:+ nl +:+ history_lines (conversation_history s) +:+
  format_turn (mkTurn "user" q) +:+
  nl +:+ nl +:+ "Analyze the following data based on this query: " +:+ q.
Proof. unfold instruction_of, add_to_history. apply build_prompt_snoc. Qed.

Lemma on_user_query_cases (chat : Chat) (q : string) (s : Session) :
  q <> "" ->
  on_user_query chat q s =
  match chat (instruction_of q s) with
  | Done r =>
      (Done (), add_to_history "assistant" (summary r) (add_to_history "user" q s))
  | Fails e => (Fails e, add_to_history "user" q s)
  | Pending => (Pending, add_to_history "user" q s)
  end.
Proof.
  intros Hq. unfold on_user_query, analyze_data.
  destruct (decide (q = "")); [done |].
  fold (instruction_of q s). by destruct (chat (instruction_of q s)).
Qed.

End MoreFacts.

(** ** The loader *)

(** X1: whatever the file does, [load_data] parses at least once, sleeps
    at most three backoff units (1.5 s) in all, and its last action is a
    parse attempt: it never sleeps after the attempt that decides the
    result. *)
Theorem load_data_never_sleeps_last (oracle : Loader.Oracle) :
  let tr := (Loader.load_data oracle).2 in
  1 <= Loader.read_attempts tr /\
  Loader.total_wait tr <= 3 /\
  exists before low_memory, tr = before ++ [Loader.ReadCsv low_memory].
Proof.
  intros tr. subst tr. rewrite LoaderFacts.load_data_cases.
  destruct (oracle 0); [| destruct (oracle 1);
    [| destruct (oracle 2); [| destruct (oracle 3) |] |] |];
  simpl; (split; [lia |]); (split; [lia |]);
  first [ by exists [], false
        | by exists [Loader.ReadCsv false], true
        | by exists [Loader.ReadCsv false; Loader.ReadCsv true; Loader.Sleep 1], true
        | by exists [Loader.ReadCsv false; Loader.ReadCsv true; Loader.Sleep 1;
                     Loader.ReadCsv true; Loader.Sleep 2], true ].
Qed.

(** X2: the outcome of [load_data] depends on the first four reads of the
    file only: two files that behave alike on these give the same result
    and the same actions. *)
Theorem load_data_looks_at_four_reads (o1 o2 : Loader.Oracle) :
  (forall k, k < 4 -> o1 k = o2 k) ->
  Loader.load_data o1 = Loader.load_data o2.
Proof.
  intros H. rewrite !LoaderFacts.load_data_cases.
  by rewrite <- (H 0), <- (H 1), <- (H 2), <- (H 3) by lia.
Qed.

Lemma load_data_looks_at_four_reads_witness :
  (forall k, k < 4 ->
     Loader.empty_then 2 Sample.table k =
     (fun i => if i <? 4 then Loader.empty_then 2 Sample.table i
               else Loader.Malformed) k) /\
  Loader.load_data (Loader.empty_then 2 Sample.table) =
  Loader.load_data (fun i => if i <? 4 then Loader.empty_then 2 Sample.table i
                             else Loader.Malformed).
Proof.
  assert (forall k, k < 4 ->
     Loader.empty_then 2 Sample.table k =
     (fun i => if i <? 4 then Loader.empty_then 2 Sample.table i
               else Loader.Malformed) k) as H.
  { intros k Hk. simpl. destruct (Nat.ltb_spec k 4); [reflexivity | lia]. }
  split; [exact H |].
  exact (load_data_looks_at_four_reads _ _ H).
Defined.

(** X3: only the first read passes [low_memory=False]; every retry calls
    [read_csv] with its defaults.  So a dataframe obtained after a retry
    was parsed with other options than one obtained at once. *)
Theorem load_data_retries_with_defaults (oracle : Loader.Oracle) :
  exists retries,
    (Loader.load_data oracle).2 = Loader.ReadCsv false :: retries /\
    Forall (fun e => e <> Loader.ReadCsv false) retries /\
    (forall d, (Loader.load_data oracle).1 = Ok (Some d) ->
               oracle 0 = Loader.Empty ->
               last (Loader.load_data oracle).2 = Some (Loader.ReadCsv true)).
Proof.
  rewrite LoaderFacts.load_data_cases.
  destruct (oracle 0) eqn:E0; [| destruct (oracle 1) eqn:E1;
    [| destruct (oracle 2) eqn:E2; [| destruct (oracle 3) eqn:E3 |] |] |];
  simpl; eexists; (split; [reflexivity |]);
  (split; [repeat constructor; discriminate |]);
  intros d' Hd Hempty; try discriminate; reflexivity.
Qed.

Lemma load_data_retries_with_defaults_witness :
  (Loader.load_data (Loader.empty_then 1 Sample.table)).1 = Ok (Some Sample.table) /\
  Loader.empty_then 1 Sample.table 0 = Loader.Empty /\
  last (Loader.load_data (Loader.empty_then 1 Sample.table)).2 =
    Some (Loader.ReadCsv true).
Proof.
  split; [reflexivity |]. split; [reflexivity |].
  destruct (load_data_retries_with_defaults (Loader.empty_then 1 Sample.table))
    as (retries & _ & _ & H).
  apply (H Sample.table); reflexivity.
Defined.

(** ** Termination predicate and prompt *)

(** X4: the predicate cannot tell a final answer from a quotation: when
    a text satisfies it, so does every text that embeds that text,
    whatever stands before and after. *)
Theorem token_survives_embedding (msg msg' : Msg) (c pre post : string) :
  msg !! "content" = Some (PyStr c) ->
  msg' !! "content" = Some (PyStr (pre +:+ c +:+ post)) ->
  is_termination_msg msg = Ok true ->
  is_termination_msg msg' = Ok true.
Proof.
  intros Hc Hc' H.
  rewrite (TerminationFacts.is_termination_msg_text _ _ Hc) in H.
  rewrite (TerminationFacts.is_termination_msg_text _ _ Hc').
  f_equal. apply MoreFacts.str_in_app. congruence.
Qed.

Lemma token_survives_embedding_witness :
  Sample.answer !! "content" = Some (PyStr "The mean of x is 3. TERMINATE") /\
  is_termination_msg
    {["content" := PyStr ("You said: " +:+ "The mean of x is 3. TERMINATE" +:+
                          ", is that right?")]} = Ok true.
Proof.
  split; [reflexivity |].
  apply (token_survives_embedding Sample.answer _
           "The mean of x is 3. TERMINATE" "You said: " ", is that right?");
    reflexivity.
Defined.

(** X5: a query that contains the token poisons its own instruction: any
    message that quotes the instruction built for it satisfies the
    termination predicate. *)
Theorem quoted_instruction_ends_exchange
    (q : string) (s : Session) (msg : Msg) (pre post : string) :
  Str.str_in "TERMINATE" q = true ->
  msg !! "content" = Some (PyStr (pre +:+ instruction_of q s +:+ post)) ->
  is_termination_msg msg = Ok true.
Proof.
  intros Hq Hmsg.
  rewrite (TerminationFacts.is_termination_msg_text _ _ Hmsg). f_equal.
  apply MoreFacts.str_in_app.
  unfold instruction_of, build_prompt.
  set (history := Str.join nl _).
  replace ("Conversation history:" +:+ nl +:+ history +:+ nl +:+ nl +:+
           "Analyze the following data based on this query: " +:+ q)
    with (("Conversation history:" +:+ nl +:+ history +:+ nl +:+ nl +:+
           "Analyze the following data based on this query: ") +:+ q +:+ "").
  - by apply MoreFacts.str_in_app.
  - by rewrite StrFacts.append_nil_r, !StrFacts.append_assoc.
Qed.

Lemma quoted_instruction_ends_exchange_witness :
  Str.str_in "TERMINATE" "what does TERMINATE mean?" = true /\
  is_termination_msg
    {["content" :=
        PyStr ("" +:+ instruction_of "what does TERMINATE mean?" Sample.session
               +:+ "")]} = Ok true.
Proof.
  split; [reflexivity |].
  apply (quoted_instruction_ends_exchange "what does TERMINATE mean?"
           Sample.session _ "" ""); reflexivity.
Defined.

(** X6: nothing of the history is left out of the instruction: every
    stored turn is in it in full, as [role: content]. *)
Theorem instruction_keeps_every_turn (q : string) (s : Session) (t : Turn) :
  t ∈ conversation_history s ->
  exists pre post,
    instruction_of q s = pre +:+ (role t +:+ ": " +:+ content t) +:+ post.
Proof.
  intros Hin. unfold instruction_of, build_prompt. simpl conversation_history.
  destruct (MoreFacts.join_holds_part nl (format_turn t)
              (map format_turn (conversation_history s ++ [mkTurn "user" q])))
    as (a & b & ->).
  { apply list_elem_of_fmap_2. apply elem_of_app. by left. }
  exists ("Conversation history:" +:+ nl +:+ a),
         (b +:+ nl +:+ nl +:+
          "Analyze the following data based on this query: " +:+ q).
  unfold format_turn. by rewrite !StrFacts.append_assoc.
Qed.

Lemma instruction_keeps_every_turn_witness :
  mkTurn "assistant" "3" ∈
    conversation_history
      (append_all [("user", "mean of x?"); ("assistant", "3")] Sample.session) /\
  exists pre post,
    instruction_of "and the median?"
      (append_all [("user", "mean of x?"); ("assistant", "3")] Sample.session) =
    pre +:+ ("assistant" +:+ ": " +:+ "3") +:+ post.
Proof.
  assert (mkTurn "assistant" "3" ∈
    conversation_history
      (append_all [("user", "mean of x?"); ("assistant", "3")] Sample.session))
    as Hin by (apply list_elem_of_In; right; left; reflexivity).
  split; [exact Hin |].
  exact (instruction_keeps_every_turn "and the median?" _ _ Hin).
Defined.

(** X7: the rendering of the history does not keep turns apart: one turn
    whose content has a line break followed by [role: text] gives the same
    prompt as two turns.  A user can so write a turn of the assistant. *)
Theorem prompt_cannot_tell_forged_turn
    (q : string) (s : Session) (r c r' c' : string) :
  build_prompt q (append_all [(r, c +:+ nl +:+ r' +:+ ": " +:+ c')] s) =
  build_prompt q (append_all [(r, c); (r', c')] s).
Proof.
  change (append_all [(r, c +:+ nl +:+ r' +:+ ": " +:+ c')] s)
    with (mkSession (df s)
            (conversation_history s ++
             [mkTurn r (c +:+ nl +:+ r' +:+ ": " +:+ c')])).
  change (append_all [(r, c); (r', c')] s)
    with (mkSession (df s)
            ((conversation_history s ++ [mkTurn r c]) ++ [mkTurn r' c'])).
  rewrite !MoreFacts.build_prompt_snoc, MoreFacts.history_lines_snoc.
  unfold format_turn. cbn [role content].
  by rewrite !StrFacts.append_assoc.
Qed.

(** ** The query handler over a session *)

Module HandlerFacts.

Lemma follow_snoc_user (h : list Turn) (q : string) :
  answers_follow_queries h ->
  answers_follow_queries (h ++ [mkTurn "user" q]).
Proof.
  intros H i t Hi. apply lookup_app_Some in Hi as [Hi|[_ Hi]].
  - destruct (H i t Hi) as [Hu|(Ha & j & u & -> & Hj & Hru)]; [by left |].
    right. split; [done |]. exists j, u. repeat split; try done.
    by apply lookup_app_l_Some.
  - apply list_lookup_singleton_Some in Hi as [_ <-]. by left.
Qed.

Lemma follow_snoc_answer (h : list Turn) (q r : string) :
  answers_follow_queries h ->
  answers_follow_queries ((h ++ [mkTurn "user" q]) ++ [mkTurn "assistant" r]).
Proof.
  intros H i t Hi. apply lookup_app_Some in Hi as [Hi|[Hle Hi]].
  - destruct (follow_snoc_user h q H i t Hi)
      as [Hu|(Ha & j & u & -> & Hj & Hru)]; [by left |].
    right. split; [done |]. exists j, u. repeat split; try done.
    by apply lookup_app_l_Some.
  - apply list_lookup_singleton_Some in Hi as [Hi <-].
    right. split; [done |].
    rewrite length_app in Hle, Hi. simpl in Hle, Hi.
    exists (length h), (mkTurn "user" q). repeat split.
    + lia.
    + apply lookup_app_l_Some. rewrite lookup_app_r by lia.
      by rewrite Nat.sub_diag.
Qed.

(** One run of the handler keeps the order of the turns. *)
Lemma on_user_query_follow (chat : Chat) (q : string) (s : Session) :
  answers_follow_queries (conversation_history s) ->
  answers_follow_queries (conversation_history (on_user_query chat q s).2).
Proof.
  intros H. destruct (decide (q = "")) as [->|Hq]; [done |].
  rewrite MoreFacts.on_user_query_cases by done.
  destruct (chat (instruction_of q s)); simpl.
  - by apply follow_snoc_answer.
  - by apply follow_snoc_user.
  - by apply follow_snoc_user.
Qed.

Lemma on_user_query_df (chat : Chat) (q : string) (s : Session) :
  df (on_user_query chat q s).2 = df s.
Proof.
  destruct (decide (q = "")) as [->|Hq]; [done |].
  rewrite MoreFacts.on_user_query_cases by done.
  by destruct (chat (instruction_of q s)).
Qed.

(** So does one rerun of the script, wherever it ends. *)
Lemma rerun_follow (r : Rerun) (h : list Turn) :
  answers_follow_queries h -> answers_follow_queries (rerun r h).
Proof.
  intros H. unfold rerun.
  destruct (Startup.run _ _ _).1 as [[d|]| |e]; try done.
  destruct (agents_built r); [| done].
  by apply (on_user_query_follow (exchange r) (typed r) (mkSession d h)).
Qed.

End HandlerFacts.

(** X8: one run of the handler never touches the dataframe and only adds
    to the history: the old history is a prefix of the new one, which is
    longer by nothing for an empty query, by the user turn and the answer
    when the exchange returns, and by the user turn alone when it does
    not.  The user turn is stored before the exchange starts. *)
Theorem on_user_query_extends_history (chat : Chat) (q : string) (s : Session) :
  let s' := (on_user_query chat q s).2 in
  df s' = df s /\
  conversation_history s `prefix_of` conversation_history s' /\
  length (conversation_history s') =
    length (conversation_history s) +
    (if decide (q = "") then 0
     else match chat (instruction_of q s) with Done _ => 2 | _ => 1 end) /\
  (q = "" \/
   conversation_history s' !! length (conversation_history s) =
     Some (mkTurn "user" q)).
Proof.
  intros s'. subst s'. split; [apply HandlerFacts.on_user_query_df |].
  destruct (decide (q = "")) as [->|Hq].
  - simpl. split; [done |]. split; [lia | by left].
  - rewrite MoreFacts.on_user_query_cases by done.
    destruct (chat (instruction_of q s)); simpl;
      (split; [| split; [rewrite ?length_app; simpl; lia |]]).
    + exists [mkTurn "user" q; mkTurn "assistant" (summary a)].
      by rewrite <- (assoc_L (++)).
    + right. apply lookup_app_l_Some. rewrite lookup_app_r by lia.
      by rewrite Nat.sub_diag.
    + by eexists.
    + right. rewrite lookup_app_r by lia. by rewrite Nat.sub_diag.
    + by eexists.
    + right. rewrite lookup_app_r by lia. by rewrite Nat.sub_diag.
Qed.

(** X9: in a session that starts with an empty history, after any
    sequence of reruns of the script (whatever is uploaded, whether the
    load or the set-up of the agents fails, whatever is typed and however
    each exchange ends) the stored history holds user and assistant turns
    only, and every assistant turn stands right after the user turn it
    answers. *)
Theorem answers_always_follow_queries (rs : list Rerun) :
  answers_follow_queries (run_queries rs).
Proof.
  unfold run_queries.
  assert (forall h, answers_follow_queries h ->
                    answers_follow_queries (foldl (fun h r => rerun r h) h rs))
    as Hinv.
  { induction rs as [|r rs IH]; intros h Hh; [done |].
    simpl. apply IH. by apply HandlerFacts.rerun_follow. }
  apply Hinv. intros i t Hi. discriminate.
Qed.

(** X10: a query whose exchange does not return stays in the history
    without an answer, and the next instruction carries it: its line
    stands right before the line of the next query. *)
Theorem unanswered_query_stays_in_prompt
    (chat : Chat) (q1 q2 : string) (s : Session) :
  q1 <> "" ->
  (forall r, chat (instruction_of q1 s) <> Done r) ->
  instruction_of q2 (on_user_query chat q1 s).2 =
    "Conversation history:" +:+ nl +:+
    history_lines (conversation_history s) +:+
    "user: " +:+ q1 +:+ nl +:+ "user: " +:+ q2 +:+ nl +:+ nl +:+
    "Analyze the following data based on this query: " +:+ q2.
Proof.
  intros Hq Hfail. rewrite MoreFacts.on_user_query_cases by done.
  assert (instruction_of q2 (add_to_history "user" q1 s) =
    "Conversation history:" +:+ nl +:+
    history_lines (conversation_history s) +:+
    "user: " +:+ q1 +:+ nl +:+ "user: " +:+ q2 +:+ nl +:+ nl +:+
    "Analyze the following data based on this query: " +:+ q2) as Hshape.
  { rewrite MoreFacts.instruction_of_shape.
    change (conversation_history (add_to_history "user" q1 s))
      with (conversation_history s ++ [mkTurn "user" q1]).
    rewrite MoreFacts.history_lines_snoc. unfold format_turn. cbn [role content].
    by rewrite !StrFacts.append_assoc. }
  destruct (chat (instruction_of q1 s)) as [r| |] eqn:E; simpl.
  - by destruct (Hfail r).
  - exact Hshape.
  - exact Hshape.
Qed.

Lemma unanswered_query_stays_in_prompt_witness :
  "mean of x?" <> "" /\
  instruction_of "and the median?"
    (on_user_query (fun _ => Fails TypeError) "mean of x?" Sample.session).2 =
  "Conversation history:" +:+ nl +:+ "user: mean of x?" +:+ nl +:+
  "user: and the median?" +:+ nl +:+ nl +:+
  "Analyze the following data based on this query: and the median?".
Proof.
  split; [discriminate |].
  apply (unanswered_query_stays_in_prompt (fun _ => Fails TypeError)
           "mean of x?" "and the median?" Sample.session); discriminate.
Defined.

(** ** The tools *)

Module ToolFacts.
Import Frame.

Lemma has_column_cases (df : Dataset) (name : string) :
  (has_column df name = true /\ name ∈ columns df) \/
  (has_column df name = false /\ name ∉ columns df).
Proof.
  destruct (has_column df name) eqn:E.
  - left. split; [done |]. by apply FrameFacts.has_column_true.
  - right. split; [done |]. by apply FrameFacts.not_a_column.
Qed.

(** The column the subscript returns is a column of the dataframe under
    that label. *)
Lemma item_elem_of (df : Dataset) (name : string) (cells : Series) :
  item df name = Ok cells -> (name, cells) ∈ df.
Proof.
  induction df as [|[n c] df IH]; simpl; [done |].
  destruct (decide (n = name)) as [->|_].
  - intros [= ->]. by left.
  - intros H. right. by apply IH.
Qed.

Lemma missing_entries_cons (c : Cell) (cells : Series) :
  missing_entries (c :: cells) =
  (if isnull c then 1 else 0) + missing_entries cells.
Proof.
  unfold missing_entries. rewrite filter_cons.
  destruct (isnull c); [by rewrite decide_True | by rewrite decide_False].
Qed.

Lemma missing_entries_le (cells : Series) :
  missing_entries cells <= length cells.
Proof.
  induction cells as [|c cells IH]; [done |].
  rewrite missing_entries_cons. simpl. destruct (isnull c); lia.
Qed.

Lemma missing_entries_zero (cells : Series) :
  missing_entries cells = 0 <-> Forall (fun c => isnull c = false) cells.
Proof.
  induction cells as [|c cells IH]; [by split |].
  rewrite missing_entries_cons, Forall_cons, <- IH.
  destruct (isnull c); simpl; intuition (first [done | lia]).
Qed.

Lemma missing_entries_all (cells : Series) :
  missing_entries cells = length cells <-> Forall (fun c => isnull c = true) cells.
Proof.
  induction cells as [|c cells IH]; [by split |].
  rewrite missing_entries_cons, Forall_cons, <- IH.
  pose proof (missing_entries_le cells).
  destruct (isnull c); simpl; intuition (first [done | lia]).
Qed.

Lemma to_dict_size {V} (entries : list (string * V)) :
  NoDup entries.*1 -> size (to_dict entries) = length entries.
Proof.
  intros Hnd. rewrite <- size_dom, FrameFacts.to_dict_dom.
  rewrite size_list_to_set by done. by rewrite length_fmap.
Qed.

End ToolFacts.

(** X11: on a loaded dataframe [calculate_correlation] answers with its
    not-found text exactly when one of the two names is not a column.  When
    both are columns the call ends as [df[column1].corr(df[column2])] ends
    for the two columns, taken in the order of the arguments: with the
    number pandas computes or with the exception pandas raises (on a column
    that does not convert to floats), which the tool does not catch.  The
    state is left alone either way. *)
Theorem correlation_sentinel_iff
    {pd : Pandas} (column1 column2 : string) (s : Session) :
  Frame.well_formed (df s) ->
  ((calculate_correlation column1 column2 s).1 =
     Ok (RStr "One or both columns not found in the dataframe.") <->
   column1 ∉ Frame.columns (df s) \/ column2 ∉ Frame.columns (df s)) /\
  ((column1 ∉ Frame.columns (df s) \/ column2 ∉ Frame.columns (df s)) \/
   exists x1 x2,
     (column1, x1) ∈ df s /\ (column2, x2) ∈ df s /\
     calculate_correlation column1 column2 s =
       (match series_corr x1 x2 with
        | Ok x => Ok (RFloat x)
        | Raise e => Raise e
        end, s)).
Proof.
  intros _. unfold calculate_correlation.
  destruct (ToolFacts.has_column_cases (df s) column1) as [[E1 H1]|[E1 H1]];
  destruct (ToolFacts.has_column_cases (df s) column2) as [[E2 H2]|[E2 H2]];
  rewrite E1, E2; simpl.
  - destruct (FrameFacts.item_has_column _ _ E1) as [x1 Hx1].
    destruct (FrameFacts.item_has_column _ _ E2) as [x2 Hx2].
    rewrite Hx1, Hx2. simpl. split.
    + split; [| by intros [?|?]].
      destruct (series_corr x1 x2); discriminate.
    + right. exists x1, x2.
      split; [by apply ToolFacts.item_elem_of |].
      split; [by apply ToolFacts.item_elem_of |].
      by destruct (series_corr x1 x2).
  - split; [split; [by right | done] | left; by right].
  - split; [split; [by left | done] | left; by left].
  - split; [split; [by left | done] | left; by left].
Qed.

Lemma correlation_sentinel_iff_witness :
  Frame.well_formed (df Sample.session) /\
  (calculate_correlation (pd := Sample.kernels) "id" "name" Sample.session).1 <>
    Ok (RStr "One or both columns not found in the dataframe.").
Proof.
  assert (Frame.well_formed (df Sample.session)) as Hwf.
  { split; apply (bool_decide_unpack _); vm_compute; exact I. }
  split; [exact Hwf |].
  destruct (correlation_sentinel_iff (pd := Sample.kernels) "id" "name"
              Sample.session Hwf) as [Hiff _].
  intros H. apply Hiff in H.
  destruct H as [H|H]; apply H; apply FrameFacts.has_column_true; reflexivity.
Defined.

(** X12: [get_column_info] and [generate_summary_stats] return their
    not-found text only for a name that is not a column: the report on a
    column starts with [Column '<name>':] and the statistics come as a
    dict, so neither can be taken for the not-found text. *)
Theorem not_found_text_iff {pd : Pandas} (column_name : string) (s : Session) :
  let not_found :=
    RStr ("Column '" +:+ column_name +:+ "' not found in the dataframe.") in
  ((get_column_info column_name s).1 = Ok not_found <->
   column_name ∉ Frame.columns (df s)) /\
  ((generate_summary_stats column_name s).1 = Ok not_found <->
   column_name ∉ Frame.columns (df s)) /\
  (column_name ∉ Frame.columns (df s) \/
   exists cells,
     Frame.item (df s) column_name = Ok cells /\
     (exists rest, (get_column_info column_name s).1 =
        Ok (RStr ("Column '" +:+ column_name +:+ "':" +:+ rest))) /\
     (generate_summary_stats column_name s).1 = Ok (RStats (series_describe cells))).
Proof.
  intros not_found. unfold get_column_info, generate_summary_stats.
  destruct (ToolFacts.has_column_cases (df s) column_name) as [[E H]|[E H]];
    rewrite E; simpl.
  - destruct (FrameFacts.item_has_column _ _ E) as [cells Hcells].
    rewrite Hcells. simpl. split; [| split].
    + split; [| done]. intros Heq. exfalso.
      injection Heq as Heq. apply (inj (String.app column_name)) in Heq.
      discriminate.
    + split; [discriminate | done].
    + right. exists cells. split; [done |]. split; [by eexists | done].
  - split; [| split]; [by split | by split | by left].
Qed.

(** X13: in a loaded dataframe [get_missing_values] has one entry per
    column; the count of a column is never above the number of rows, it is
    zero exactly when no entry of the column is missing, and it equals the
    number of rows exactly when all are. *)
Theorem missing_counts_are_bounded (s : Session) :
  Frame.well_formed (df s) ->
  exists counts : gmap string nat,
    get_missing_values s = (Ok (RCounts counts), s) /\
    size counts = length (df s) /\
    forall name cells, (name, cells) ∈ df s ->
      exists n,
        counts !! name = Some n /\
        n <= Frame.nrows (df s) /\
        (n = 0 <-> Forall (fun c => Frame.isnull c = false) cells) /\
        (n = Frame.nrows (df s) <-> Forall (fun c => Frame.isnull c = true) cells).
Proof.
  intros [Hnd Hrows]. eexists. split; [reflexivity |].
  assert (NoDup (map (fun col : string * Series =>
                        (col.1, Frame.sum_bool (map Frame.isnull col.2)))
                     (df s)).*1) as Hkeys
    by (by rewrite <- list_fmap_compose).
  split.
  - rewrite ToolFacts.to_dict_size by done. by rewrite length_fmap.
  - intros name cells Hin. exists (Frame.missing_entries cells).
    assert (length cells = Frame.nrows (df s)) as Hlen.
    { rewrite Forall_forall in Hrows. apply (Hrows (name, cells) Hin). }
    split; [| split; [| split]].
    + apply FrameFacts.to_dict_lookup; [done |].
      rewrite <- FrameFacts.sum_bool_isnull.
      by apply (list_elem_of_fmap_2
                  (fun col : string * Series =>
                     (col.1, Frame.sum_bool (map Frame.isnull col.2)))
                  (df s) (name, cells)).
    + rewrite <- Hlen. apply ToolFacts.missing_entries_le.
    + apply ToolFacts.missing_entries_zero.
    + rewrite <- Hlen. apply ToolFacts.missing_entries_all.
Qed.

Lemma missing_counts_are_bounded_witness :
  Frame.well_formed (df Sample.session) /\
  exists counts : gmap string nat,
    get_missing_values Sample.session = (Ok (RCounts counts), Sample.session) /\
    size counts = 3.
Proof.
  assert (Frame.well_formed (df Sample.session)) as Hwf.
  { split; apply (bool_decide_unpack _); vm_compute; exact I. }
  split; [exact Hwf |].
  destruct (missing_counts_are_bounded Sample.session Hwf)
    as (counts & Hrun & Hsize & _).
  exists counts. split; [exact Hrun | exact Hsize].
Defined.

(** ** The page and the start of the script *)

Module PageFacts.
Import Loader.

Lemma read_attempts_bounds (oracle : Oracle) :
  1 <= read_attempts (load_data oracle).2 <= 4.
Proof.
  rewrite LoaderFacts.load_data_cases.
  destruct (oracle 0); [| destruct (oracle 1);
    [| destruct (oracle 2); [| destruct (oracle 3) |] |] |]; simpl; lia.
Qed.

Lemma display_snoc (s : Session) (r c : string) :
  display_conversation (add_to_history r c s) =
  display_conversation s ++ [ChatMessage r [c]].
Proof. unfold display_conversation. simpl. by rewrite map_app. Qed.

End PageFacts.

(** X14: what a run of the script leaves on the page agrees with what it
    stores.  The run has the outcome and the session of the handler; when
    the query is answered (or empty) the page shows exactly the blocks that
    [display_conversation] draws from the stored history on the next run;
    when the exchange does not return, the page shows in addition an empty
    assistant block that is not stored. *)
Theorem page_matches_history (chat : Chat) (q : string) (s : Session) :
  let page := render_page chat q s in
  (page.1.1, page.1.2) = on_user_query chat q s /\
  page.2 =
    display_conversation page.1.2 ++
    match page.1.1 with
    | Done _ => []
    | _ => [ChatMessage "assistant" []]
    end.
Proof.
  unfold render_page, on_user_query.
  destruct (decide (q = "")) as [->|Hq]; simpl.
  - split; [done |]. by rewrite (right_id_L [] (++)).
  - destruct (analyze_data chat q (add_to_history "user" q s)); simpl;
      (split; [done |]); rewrite !PageFacts.display_snoc;
      by rewrite ?(right_id_L [] (++)).
Qed.

(** X15: the script stops at the start exactly when no file is uploaded.
    It then shows its warning once and reads and writes nothing: the check
    of line 38 is never reached without a file, so the warning is never
    shown twice.  With a file no warning is shown and the script does not
    stop. *)
Theorem startup_stops_without_upload
    (uploaded_file : option Startup.Upload)
    (temp_file upload_stream : Loader.Oracle) :
  let out := Startup.run uploaded_file temp_file upload_stream in
  (uploaded_file = None /\ out.1 = Startup.Stop /\
   Startup.widgets out.2 =
     [FileUploader "Choose a CSV file"; Warning Startup.please_upload] /\
   Startup.temp_files out.2 = [] /\
   Startup.temp_reads out.2 = [] /\ Startup.upload_reads out.2 = []) \/
  (uploaded_file <> None /\ out.1 <> Startup.Stop /\
   Startup.warnings (Startup.widgets out.2) = 0).
Proof.
  destruct uploaded_file as [up|]; [right | left; by repeat split].
  split; [done |].
  unfold Startup.run, Startup.startup, mbind, mret, Startup.script_bind,
    Startup.script_ret, Startup.file_uploader, Startup.read_text,
    Startup.write_temp, Startup.load_temp, Startup.load_upload. simpl.
  destruct (Startup.decoded up); simpl; [| by split].
  destruct (Loader.load_data temp_file) as [[d1|e1] tr1]; simpl; [| by split].
  destruct (Loader.load_data upload_stream) as [[d2|e2] tr2]; simpl; by split.
Qed.

(** X16: with an uploaded file the CSV is loaded twice.  The text of the
    upload is written to a temporary file and loaded from there; if that
    load raises, the script ends with its error and the upload itself is
    never read.  Otherwise the dataframe of the first load is dropped: the
    script goes on with whatever [load_data] gives for the upload object,
    after two to eight parse attempts in all.  Bytes that are not UTF-8
    end the script before anything is written or read. *)
Theorem startup_loads_twice
    (up : Startup.Upload) (temp_file upload_stream : Loader.Oracle) :
  let out := Startup.run (Some up) temp_file upload_stream in
  match Startup.decoded up with
  | None =>
      out.1 = Startup.Crash Startup.UnicodeDecodeError /\
      Startup.temp_files out.2 = [] /\
      Startup.temp_reads out.2 = [] /\ Startup.upload_reads out.2 = []
  | Some text =>
      Startup.temp_files out.2 = [text] /\
      Startup.temp_reads out.2 = (Loader.load_data temp_file).2 /\
      match (Loader.load_data temp_file).1 with
      | Raise e =>
          out.1 = Startup.Crash (Startup.LoaderError e) /\
          Startup.upload_reads out.2 = []
      | Ok _ =>
          out.1 = Startup.step_of (Loader.load_data upload_stream).1 /\
          Startup.upload_reads out.2 = (Loader.load_data upload_stream).2 /\
          2 <= Loader.read_attempts (Startup.temp_reads out.2) +
               Loader.read_attempts (Startup.upload_reads out.2) <= 8
      end
  end.
Proof.
  unfold Startup.run, Startup.startup, mbind, mret, Startup.script_bind,
    Startup.script_ret, Startup.file_uploader, Startup.read_text,
    Startup.write_temp, Startup.load_temp, Startup.load_upload. simpl.
  destruct (Startup.decoded up) as [text|]; simpl; [| by repeat split].
  pose proof (PageFacts.read_attempts_bounds temp_file) as Ht.
  pose proof (PageFacts.read_attempts_bounds upload_stream) as Hu.
  destruct (Loader.load_data temp_file) as [[d1|e1] tr1]; simpl in *;
    [| by repeat split].
  destruct (Loader.load_data upload_stream) as [[d2|e2] tr2]; simpl in *;
    repeat split; try done; lia.
Qed.
